(** * OpenAlex SDK: the entity facade of [src/index.ts] and its pagination layer

    A shallow embedding of the [OpenAlex] client class.  Asynchronous methods
    become computations in a small writer/error monad: the outcome is what the
    promise settles to, the event list is what the call did to the outside
    world (HTTP requests, console output, files written), in program order.
    Where a call is made and not awaited, what its task does after the
    caller has gone on is kept apart, in a [Detached] event.

    The class lives in [src/index.ts]; the helpers it imports from [./utils]
    and the types from [./types] are not part of the sources at hand.  Pure
    helpers whose result is only passed along ([buildUrl], [appendCursorToUrl],
    [convertAbstractArrayToString]) and the HTTP transport ([GET]) are fields
    of an environment record.  The pagination helpers are modelled from the
    design document, each marked as such. *)

From stdpp Require Import base strings gmap list pretty.

Open Scope Z_scope.

(** ** JavaScript values and API objects *)

#[warnings="-register-all"]
Inductive JsVal : Type :=
| JNull
| JBool (b : bool)
| JNum (n : Z)
| JStr (s : string)
| JArr (l : list JsVal)
| JObj (o : gmap string JsVal).

(** An entity (work, author, ...) is a JavaScript object: a finite map from
    property names to values.  A property that is not in the map reads as
    [undefined]. *)
Abbreviation Obj := (gmap string JsVal).

(** [if (v)] on a property read. *)
Definition truthy (v : option JsVal) : bool :=
  match v with
  | None | Some JNull => false
  | Some (JBool b) => b
  | Some (JNum n) => bool_decide (n ≠ 0)
  | Some (JStr s) => bool_decide (s ≠ "")
  | Some (JArr _) | Some (JObj _) => true
  end.

(** [if (s)] on a [string | undefined] and [if (n)] on a [number | undefined]. *)
Definition truthyStr (s : option string) : bool :=
  match s with Some s => bool_decide (s ≠ "") | None => false end.

Definition truthyNum (n : option Z) : bool :=
  match n with Some n => bool_decide (n ≠ 0) | None => false end.

Module Meta.
Record t : Type := mk {
  count : Z;
  page : option Z;
  per_page : Z;
  next_cursor : option string;
  url : option string
}.
Definition setPage (p : Z) (m : t) : t :=
  mk (count m) (Some p) (per_page m) (next_cursor m) (url m).
Definition setUrl (u : string) (m : t) : t :=
  mk (count m) (page m) (per_page m) (next_cursor m) (Some u).
End Meta.

(** The payload of a list endpoint: [{ results: [...], meta: {...} }]. *)
Record Works : Type := mkWorks {
  results : list Obj;
  meta : Meta.t
}.

Record AxiosResponse (T : Type) : Type := mkResponse {
  status : Z;
  statusText : string;
  data : T
}.
Arguments mkResponse {T} _ _ _.
Arguments status {T} _.
Arguments statusText {T} _.
Arguments data {T} _.

Record SortBy : Type := mkSortBy { field : string; order : string }.

Module SearchParameters.
Record t : Type := mk {
  search : option string;
  searchField : option string;
  perPage : option Z;
  page : option Z;
  retriveAllPages : bool;
  toJson : option string;
  toCsv : option string;
  startPage : option Z;
  endPage : option Z;
  filter : option (list (string * JsVal));
  groupBy : option string;
  sortBy : option SortBy;
  AbstractArrayToString : bool;
  chunkSize : option Z
}.
(** The default argument of the list methods:
    [{ perPage: 25, page: 1, retriveAllPages: false }]. *)
Definition defaults : t :=
  mk None None (Some 25) (Some 1) false None None None None None None None
     false None.
End SearchParameters.

(** ** Effects *)

(** What is written by [fs.writeFileSync(path, JSON.stringify(x, null, 2))]:
    the value [x] itself, a whole payload or a list of results. *)
Inductive Document : Type :=
| DocWorks (w : Works)
| DocResults (rs : list Obj).

Inductive Error : Type :=
| JsError (message : string)      (* new Error(message), thrown by index.ts *)
| ValidationError                 (* raised by the parameter validators *)
| TransportError (code : Z) (text : string). (* raised by the page fetcher *)

(** How a call ends: the promise resolves, rejects, or the model ran out of
    the fuel that bounds its loops. *)
Inductive Outcome (A : Type) : Type :=
| Returned (a : A)
| Thrown (e : Error)
| OutOfFuel.
Arguments Returned {A} _.
Arguments Thrown {A} _.
Arguments OutOfFuel {A}.

(** [Detached later ending] stands in the trace of a caller where it has
    called an async function without awaiting or returning the promise and
    the callee has suspended for the first time (or ended): [later] is what
    the callee's task does from there on, [ending] how that task ends.  The
    events of [later] do not happen at this place: they happen after the
    caller's own events that follow, up to the caller's next fetch or its
    end. *)
#[warnings="-register-all"]
Inductive Event : Type :=
| Request (url : string)                         (* GET(url) *)
| ConsoleLog (msg : string)                      (* console.log(msg) *)
| WriteFileSync (path : string) (doc : Document) (* fs.writeFileSync *)
| ConvertToCSV (rs : list Obj) (name : string)   (* convertToCSV(rs, name) *)
| Detached (later : list Event) (ending : Outcome unit).

Definition M (A : Type) : Type := (Outcome A * list Event)%type.

Definition ret {A} (a : A) : M A := (Returned a, []).
Definition throw {A} (e : Error) : M A := (Thrown e, []).
Definition emit (ev : Event) : M unit := (Returned tt, [ev]).
Definition timeout {A} : M A := (OutOfFuel, []).

Definition bind {A B} (m : M A) (k : A → M B) : M B :=
  match m with
  | (Returned a, es) => let '(o, es') := k a in (o, es ++ es')
  | (Thrown e, es) => (Thrown e, es)
  | (OutOfFuel, es) => (OutOfFuel, es)
  end.

Notation "'let!' x ':=' m 'in' k" := (bind m (λ x, k))
  (at level 10, x binder, m at level 100, k at level 200).
Notation "m '>>' k" := (bind m (λ _, k))
  (at level 100, k at level 200, right associativity).

Definition outcome {A} (m : M A) : Outcome A := fst m.
Definition trace {A} (m : M A) : list Event := snd m.

(** An async call as it is seen by a caller that does not wait for it:
    what the callee does until it first suspends, what it does after
    that, and how it ends. *)
Record Started : Type := mkStarted {
  ran : list Event;
  pending : list Event;
  ending : Outcome unit
}.

(** A call to an async function whose promise is neither awaited nor
    returned.  The callee runs until it first suspends; then the caller
    goes on, and what is left of the callee runs once the caller has
    suspended or ended.  Whatever the callee resolves or rejects with, an
    error thrown before its first await included, settles a promise that
    nobody holds: it never reaches the caller, and neither does the lack
    of fuel of a loop the caller does not wait for. *)
Definition detach (callee : Started) : M unit :=
  (Returned tt, ran callee ++ [Detached (pending callee) (ending callee)]).

(** Modelled from the spec: where the modelled helpers suspend.  The calls
    a task waits for are its fetches (§5: a traversal step suspends only at
    the network boundary); console output, [fs.writeFileSync] and the call
    of [convertToCSV] do not suspend it. *)
Definition suspends (ev : Event) : bool :=
  match ev with Request _ => true | _ => false end.

(** What a task does up to and including the call at which it first
    suspends, and what it does after that. *)
Fixpoint beforeAwait (es : list Event) : list Event :=
  match es with
  | [] => []
  | ev :: es' => ev :: (if suspends ev then [] else beforeAwait es')
  end.

Fixpoint afterAwait (es : list Event) : list Event :=
  match es with
  | [] => []
  | ev :: es' => if suspends ev then es' else afterAwait es'
  end.

(** How a task ends, whatever it resolves with. *)
Definition endingOf {A} (o : Outcome A) : Outcome unit :=
  match o with
  | Returned _ => Returned tt
  | Thrown e => Thrown e
  | OutOfFuel => OutOfFuel
  end.

(** A run as a started call: split where it first suspends. *)
Definition start {A} (m : M A) : Started :=
  mkStarted (beforeAwait (trace m)) (afterAwait (trace m))
            (endingOf (outcome m)).

(** The caller's own events in a trace, and the events of the tasks it
    has left running. *)
Definition own (es : list Event) : list Event :=
  omap (λ ev, match ev with Detached _ _ => None | _ => Some ev end) es.

Definition leftRunning (es : list Event) : list Event :=
  concat (omap (λ ev, match ev with
                      | Detached later _ => Some later
                      | _ => None
                      end) es).

(** The events of a run in the order in which they happen, for a caller
    that makes no further fetch after leaving a task running: first its
    own events, then those of the task. *)
Definition chronological (es : list Event) : list Event :=
  own es ++ leftRunning es.

(** No task is left running in these events. *)
Definition plain (es : list Event) : Prop :=
  Forall (λ ev, match ev with Detached _ _ => False | _ => True end) es.

(** The requests of a trace, in order. *)
Definition requests (es : list Event) : list string :=
  omap (λ ev, match ev with Request u => Some u | _ => None end) es.

(** ** The environment: transport and pure helpers from [./utils] *)

(** [GET<T>(url)] is generic in the source; the index says at which payload
    type the caller reads [response.data]. *)
Inductive PayloadKind : Type := Entity | Listing.

Definition Payload (k : PayloadKind) : Type :=
  match k with Entity => Obj | Listing => Works end.

Record Env : Type := mkEnv {
  (* ./utils/http: the response the remote gives for a URL.  The class
     inspects [response.status] itself, so a non-2xx answer is a response,
     not an exception. *)
  GET_response : ∀ k : PayloadKind, string → AxiosResponse (Payload k);
  (* ./utils/helpers *)
  buildUrl : string → string → option string → option string →
             option (list (string * JsVal)) → option string →
             option SortBy → string;
  appendCursorToUrl : string → option Z → string → bool → string;
  convertAbstractArrayToString : JsVal → string;
  (* used by the modelled drivers only: the URL they are handed already
     carries the first cursor, [replaceCursor u c] is [u] with cursor [c] *)
  replaceCursor : string → string → string
}.

Record OpenAlex : Type := mkOpenAlex {
  email : option string;
  apiKey : option string;
  url : string;
  maxRetries : Z;
  retryDelay : Z;
  retryHttpCodes : list Z
}.

(** [new OpenAlex(email, apiKey)], both defaulting to [null]. *)
Definition new_OpenAlex (email apiKey : option string) : OpenAlex :=
  mkOpenAlex email apiKey "https://api.openalex.org" 3 1000
             [429; 500; 502; 503; 504].

(** The message of every error thrown by the class on a bad response:
    [`Error ${response.status}: ${response.statusText}`]. *)
Definition errorMessage {T} (response : AxiosResponse T) : string :=
  "Error " +:+ pretty (status response) +:+ ": " +:+ statusText response.

Section Lookups.
Context (E : Env) (this : OpenAlex).

Definition GET (k : PayloadKind) (u : string) : M (AxiosResponse (Payload k)) :=
  (Returned (GET_response E k u), [Request u]).

(** The first three lines of [work], [author], [source] and [institution]:
    [`${this.url}/<collection>/${externalIds}:${id}`] when an external id
    namespace is given, [`${this.url}/<collection>/${id}`] otherwise. *)
Definition entityUrl (collection id : string) (externalIds : option string)
  : string :=
  if truthyStr externalIds
  then url this +:+ "/" +:+ collection +:+ "/" +:+ default "" externalIds
       +:+ ":" +:+ id
  else url this +:+ "/" +:+ collection +:+ "/" +:+ id.

(** The object literal [{ id: id, biblio: {}, counts_by_year: [] }]. *)
Definition emptyWork (id : string) : Obj :=
  {[ "id" := JStr id; "biblio" := JObj ∅; "counts_by_year" := JArr [] ]}.

Definition work (id : string) (externalIds : option string) : M Obj :=
  let url := entityUrl "works" id externalIds in
  let! response := GET Entity url in
  if bool_decide (status response = 200) then ret (data response)
  else
    (if bool_decide (status response = 404)
     then emit (ConsoleLog ("Work with id " +:+ id +:+ " not found"))
     else emit (ConsoleLog (errorMessage response))) >>
    ret (emptyWork id).

Definition author (id : string) (externalIds : option string) : M Obj :=
  let url := entityUrl "authors" id externalIds in
  let! response := GET Entity url in
  if bool_decide (status response = 200) then ret (data response)
  else throw (JsError (errorMessage response)).

Definition source (id : string) (externalIds : option string) : M Obj :=
  let url := entityUrl "sources" id externalIds in
  let! response := GET Entity url in
  if bool_decide (status response = 200) then ret (data response)
  else throw (JsError (errorMessage response)).

Definition institution (id : string) (externalIds : option string) : M Obj :=
  let url := entityUrl "institutions" id externalIds in
  let! response := GET Entity url in
  if bool_decide (status response = 200) then ret (data response)
  else throw (JsError (errorMessage response)).

Definition topic (id : string) : M Obj :=
  if bool_decide (id = "") then throw (JsError "Topic id is required")
  else
    let! response := GET Entity (url this +:+ "/topics/" +:+ id) in
    if bool_decide (status response = 200) then ret (data response)
    else throw (JsError (errorMessage response)).

Definition autoCompleteWorks (search : string) : M Works :=
  let! response := GET Listing (url this +:+ "/autocomplete/works?q=" +:+ search) in
  if bool_decide (status response = 200) then ret (data response)
  else throw (JsError (errorMessage response)).

Definition ngram (id : string) : M Obj :=
  let! response := GET Entity (url this +:+ "/works/" +:+ id +:+ "/ngram") in
  if bool_decide (status response = 200) then ret (data response)
  else throw (JsError (errorMessage response)).

End Lookups.

(** ** Pagination helpers *)

Section Pagination.
Context (E : Env).

(** Modelled from the spec: the semantically-empty page of §4.3, zero
    results and no next cursor. *)
Definition emptyPage : Works := mkWorks [] (Meta.mk 0 None 0 None None).

(** Modelled from the spec: the Page Fetcher of §4.3 (it is part of
    [./utils], which is not in the sources).  One GET; the payload on
    HTTP 200; on 404 a page with zero results and no next cursor; on any
    other status a transport error carrying status code and status text.
    The spec names only 200 as success and is silent on the other 2xx
    codes; they are treated like the class treats them, as failures. *)
Definition fetchPage (u : string) : M Works :=
  let! response := GET E Listing u in
  if bool_decide (status response = 200) then ret (data response)
  else if bool_decide (status response = 404) then ret emptyPage
  else throw (TransportError (status response) (statusText response)).

(** Modelled from the spec: the pre-flight checks of §3 and §7 that can be
    decided from the arguments the class passes ([./utils/works] is not in
    the sources).  A drain-to-completion request must not name a window
    ("[startPage]/[endPage] and [drainAll] are mutually exclusive"), and
    [startPage] needs [endPage].  The spec lists its checks by example
    only; [searchField], [chunkSize], [toCsv] and [toJson] are received
    but no rule on them alone is stated. *)
Definition validateParameters (retriveAllPages : bool)
    (startPage endPage : option Z) (searchField : option string)
    (chunkSize : option Z) (toCsv toJson : option string) : M unit :=
  if retriveAllPages && (truthyNum startPage || truthyNum endPage)
  then throw ValidationError
  else if truthyNum startPage && negb (truthyNum endPage)
  then throw ValidationError
  else ret tt.

(** Modelled from the spec: the validators of the four other list
    endpoints take the first four arguments and make the same checks. *)
Definition validateAuthorParameters (retriveAllPages : bool)
    (startPage endPage : option Z) (searchField : option string) : M unit :=
  validateParameters retriveAllPages startPage endPage searchField
                     None None None.
Definition validateSourcesParameters := validateAuthorParameters.
Definition validateInstitutionsParameters := validateAuthorParameters.
Definition validateTopicsParameters := validateAuthorParameters.

(** Modelled from the spec: the loop of the Cursor Resolver (§4.2), [n]
    sequential fetches, keeping of every page only its next cursor.  The
    spec asks for exactly [targetPage - 1] fetches for every target page
    and for the last known cursor where the collection ends early: a page
    without a next cursor leaves the cursor as it is, and the loop goes on. *)
Fixpoint resolveFrom (n : nat) (url : string) (perPage : option Z)
    (cursor : string) : M string :=
  match n with
  | O => ret cursor
  | S n' =>
      let! p := fetchPage (appendCursorToUrl E url perPage cursor false) in
      resolveFrom n' url perPage (default cursor (Meta.next_cursor (meta p)))
  end.

(** Modelled from the spec: the Cursor Resolver of §4.2 ([./utils/helpers]
    is not in the sources).  For a target page of at most 1 the start
    sentinel, without a request; otherwise [targetPage - 1] sequential
    fetches from the sentinel.  If the collection ends early the last known
    cursor is returned; a failed fetch propagates.  The class passes
    [page], which may be absent; an absent page is page 1, the default the
    class itself uses ([page ?? 1]). *)
Definition getCursorByPage (url : string) (page perPage : option Z)
  : M string :=
  let targetPage := default 1 page in
  if bool_decide (targetPage ≤ 1) then ret "*"
  else resolveFrom (Z.to_nat (targetPage - 1)) url perPage "*".

(** The arrow function mapped over the results in [works]:
    [if (work.abstract_inverted_index) work.abstract = convert(...);
     delete work.abstract_inverted_index; return work]. *)
Definition abstractToString (work : Obj) : Obj :=
  let work :=
    match work !! "abstract_inverted_index" with
    | Some index =>
        if truthy (Some index)
        then <["abstract" := JStr (convertAbstractArrayToString E index)]> work
        else work
    | None => work
    end in
  delete "abstract_inverted_index" work.

(** Modelled from the spec: the post-processing of a page by the drivers,
    which are handed the [AbstractArrayToString] option: the conversion the
    class applies to the first page, applied to every later page. *)
Definition postprocess (AbstractArrayToString : bool) (rs : list Obj)
  : list Obj :=
  if AbstractArrayToString then abstractToString <$> rs else rs.

(** Modelled from the spec: the export of a finished window by the
    drivers, to [<toJson>.json] and to the CSV sink, as the class itself
    exports a single page. *)
Definition exportWorks (toJson toCsv : option string) (d : Works) : M unit :=
  (if truthyStr toJson
   then emit (WriteFileSync (default "" toJson +:+ ".json") (DocWorks d))
   else ret tt) >>
  (if truthyStr toCsv
   then emit (ConvertToCSV (results d) (default "" toCsv))
   else ret tt).

(** Modelled from the spec: fetch-and-advance (§4.4) for at most [n]
    further pages, stopping at a page without a next cursor. *)
Fixpoint advance (n : nat) (url : string) (A : bool)
    (cursor : option string) (acc : list Obj) : M (list Obj) :=
  match n, cursor with
  | S n', Some c =>
      let! p := fetchPage (replaceCursor E url c) in
      advance n' url A (Meta.next_cursor (meta p))
              (acc ++ postprocess A (results p))
  | _, _ => ret acc
  end.

(** Modelled from the spec: the bounded window of §4.4(2)
    ([./utils/works] is not in the sources).  The class has fetched the
    page at [startPage] and hands it over; the driver fetches and advances
    on each page's next cursor until [endPage] is reached, inclusive, or a
    page has no next cursor.  The results of the visited pages are
    concatenated in the payload of the first page, whose [meta] (with
    [meta.page] already set by the class) is kept, and exported. *)
Definition handleMultiplePages (startPage endPage : Z) (url : string)
    (response : AxiosResponse Works) (toJson toCsv : option string)
    (AbstractArrayToString : bool) : M Works :=
  let first := data response in
  let! all := advance (Z.to_nat (endPage - startPage)) url
                      AbstractArrayToString
                      (Meta.next_cursor (meta first)) (results first) in
  let window := mkWorks all (meta first) in
  exportWorks toJson toCsv window >> ret window.

(** Modelled from the spec: fetch-and-advance (§4.4) until a page has no
    next cursor.  [fuel] bounds the number of fetches. *)
Fixpoint drain (fuel : nat) (url : string) (A : bool)
    (cursor : option string) (acc : list Obj) : M (list Obj) :=
  match cursor with
  | None => ret acc
  | Some c =>
      match fuel with
      | O => timeout
      | S fuel' =>
          let! p := fetchPage (replaceCursor E url c) in
          drain fuel' url A (Meta.next_cursor (meta p))
                (acc ++ postprocess A (results p))
      end
  end.

(** Modelled from the spec: monolithic drain-to-completion, §4.4(3)
    ([./utils/works] is not in the sources).  Starting from the page the
    class has fetched, every page's results are accumulated until the next
    cursor is absent; the whole is returned in the first page's payload,
    and exported. *)
Definition handleAllPages (fuel : nat) (url : string)
    (response : AxiosResponse Works) (toJson toCsv : option string)
    (AbstractArrayToString : bool) : M Works :=
  let first := data response in
  let! all := drain fuel url AbstractArrayToString
                    (Meta.next_cursor (meta first)) (results first) in
  let window := mkWorks all (meta first) in
  exportWorks toJson toCsv window >> ret window.

(** Modelled from the spec: the four other endpoints have drivers of
    their own in [./utils]; they are the same traversals without the
    abstract post-processing. *)
Definition handleMultipleAuthorsPages s e u r (toJson toCsv : option string) :=
  handleMultiplePages s e u r toJson toCsv false.
Definition handleMultipleSourcesPages := handleMultipleAuthorsPages.
Definition handleMultipleInstitutionsPages := handleMultipleAuthorsPages.
Definition handleMultipleTopicsPages := handleMultipleAuthorsPages.
Definition handleAllAuthorsPages fuel u r (toJson toCsv : option string) :=
  handleAllPages fuel u r toJson toCsv false.
Definition handleAllSourcesPages := handleAllAuthorsPages.
Definition handleAllInstitutionsPages := handleAllAuthorsPages.
Definition handleAllTopicsPages := handleAllAuthorsPages.

(** Modelled from the spec: one flush to the Export Sink (§4.4, §6).  The
    chunk goes to the JSON and CSV targets that are set, the chunk index
    appended to the filename stem. *)
Definition flushChunk (toJson toCsv : option string) (index : nat)
    (chunk : list Obj) : M unit :=
  (if truthyStr toJson
   then emit (WriteFileSync (default "" toJson +:+ pretty index +:+ ".json")
                            (DocResults chunk))
   else ret tt) >>
  (if truthyStr toCsv
   then emit (ConvertToCSV chunk (default "" toCsv +:+ pretty index))
   else ret tt).

(** Modelled from the spec: the loop of the chunked drain (§4.4).  [acc]
    holds the results not yet flushed, [cursor] the next cursor of the page
    just accumulated; [fuel] bounds the number of rounds. *)
Fixpoint drainChunks (fuel : nat) (url : string) (A : bool)
    (chunkSize : Z) (toJson toCsv : option string)
    (index : nat) (acc : list Obj) (cursor : option string) : M unit :=
  match fuel with
  | O => timeout
  | S fuel' =>
      let full := bool_decide (chunkSize ≤ Z.of_nat (length acc)) in
      (if full then flushChunk toJson toCsv index acc else ret tt) >>
      let index := if full then S index else index in
      let acc := if full then [] else acc in
      match cursor with
      | None =>
          match acc with
          | [] => ret tt
          | _ => flushChunk toJson toCsv index acc
          end
      | Some c =>
          let! p := fetchPage (replaceCursor E url c) in
          drainChunks fuel' url A chunkSize toJson toCsv index
                      (acc ++ postprocess A (results p))
                      (Meta.next_cursor (meta p))
      end
  end.

(** Modelled from the spec: chunked drain-to-completion, §4.4(3)
    ([./utils/works] is not in the sources).  Results are accumulated;
    when the running count reaches [chunkSize] the accumulator is flushed
    to the Export Sink under the next chunk index and cleared; what is
    left when the collection ends is flushed as the final, partial chunk.
    Nothing is returned.  The spec does not say where the chunk index
    starts; it starts at 0 here. *)
Definition handleAllPagesInChunks (fuel : nat) (url : string)
    (response : AxiosResponse Works) (toJson toCsv : option string)
    (AbstractArrayToString : bool) (chunkSize : Z) : M unit :=
  let first := data response in
  drainChunks fuel url AbstractArrayToString chunkSize toJson toCsv 0%nat
              (results first) (Meta.next_cursor (meta first)).

End Pagination.

(** ** The list methods of the class *)

Section Facade.
Context (E : Env) (this : OpenAlex).

Import SearchParameters.

(** [startPage && endPage] *)
Definition windowed (searchParameters : SearchParameters.t) : bool :=
  truthyNum (startPage searchParameters) && truthyNum (endPage searchParameters).

(** [works(searchParameters)].  [fuel] bounds the drain loops of the
    drivers and is no argument of the source. *)
Definition works (fuel : nat) (searchParameters : SearchParameters.t)
  : M Works :=
  let sp := searchParameters in
  let perPage := perPage sp in
  let page := page sp in
  validateParameters (retriveAllPages sp) (startPage sp) (endPage sp)
                     (searchField sp) (chunkSize sp) (toCsv sp) (toJson sp) >>
  let url := buildUrl E (url this) "works" (search sp) (searchField sp)
                      (filter sp) (groupBy sp) (sortBy sp) in
  let! cursor := getCursorByPage E url page perPage in
  let perPage := if retriveAllPages sp then Some 200 else perPage in
  let cursor := if retriveAllPages sp then "*" else cursor in
  let! '(page, cursor) :=
    if windowed sp
    then let! c := getCursorByPage E url (startPage sp) perPage in
         ret (startPage sp, c)
    else ret (page, cursor) in
  let url := appendCursorToUrl E url perPage cursor (retriveAllPages sp) in
  let! response := GET E Listing url in
  if bool_decide (status response = 200) then
    (* response.data.meta.page = page ?? 1 *)
    let d := mkWorks (results (data response))
                     (Meta.setPage (default 1 page) (meta (data response))) in
    (* response.data.results = response.data.results.map(...) *)
    let d := if AbstractArrayToString sp
             then mkWorks (abstractToString E <$> results d) (meta d)
             else d in
    let response := mkResponse (status response) (statusText response) d in
    (* the end of the method: single-shot export, response.data.meta.url = url *)
    let finish : M Works :=
      (if truthyStr (toJson sp)
       then emit (WriteFileSync (default "" (toJson sp) +:+ ".json")
                                (DocWorks (data response)))
       else ret tt) >>
      (if truthyStr (toCsv sp)
       then emit (ConvertToCSV (results (data response))
                               (default "" (toCsv sp)))
       else ret tt) >>
      ret (mkWorks (results (data response))
                   (Meta.setUrl url (meta (data response)))) in
    if windowed sp then
      handleMultiplePages E (default 0 (startPage sp)) (default 0 (endPage sp))
                          url response (toJson sp) (toCsv sp)
                          (AbstractArrayToString sp)
    else if retriveAllPages sp then
      if truthyNum (chunkSize sp) then
        (* called, neither awaited nor returned: the method goes on *)
        detach (start (handleAllPagesInChunks E fuel url response
                         (toJson sp) (toCsv sp) (AbstractArrayToString sp)
                         (default 0 (chunkSize sp)))) >>
        finish
      else
        handleAllPages E fuel url response (toJson sp) (toCsv sp)
                       (AbstractArrayToString sp)
    else finish
  else throw (JsError (errorMessage response)).

(** [authors], [sources], [institutions] and [topics] are one text with
    the collection name and the three helpers exchanged. *)
Definition listing (collection : string)
    (validate : bool → option Z → option Z → option string → M unit)
    (handleMultiple : Z → Z → string → AxiosResponse Works →
                      option string → option string → M Works)
    (handleAll : nat → string → AxiosResponse Works →
                 option string → option string → M Works)
    (fuel : nat) (searchParameters : SearchParameters.t) : M Works :=
  let sp := searchParameters in
  let perPage := perPage sp in
  let page := page sp in
  validate (retriveAllPages sp) (startPage sp) (endPage sp) (searchField sp) >>
  let url := buildUrl E (url this) collection (search sp) (searchField sp)
                      (filter sp) (groupBy sp) (sortBy sp) in
  let! cursor := getCursorByPage E url page perPage in
  let perPage := if retriveAllPages sp then Some 200 else perPage in
  let cursor := if retriveAllPages sp then "*" else cursor in
  let! '(page, cursor) :=
    if windowed sp
    then let! c := getCursorByPage E url (startPage sp) perPage in
         ret (startPage sp, c)
    else ret (page, cursor) in
  let url := appendCursorToUrl E url perPage cursor (retriveAllPages sp) in
  let! response := GET E Listing url in
  if bool_decide (status response = 200) then
    let d := mkWorks (results (data response))
                     (Meta.setPage (default 1 page) (meta (data response))) in
    let response := mkResponse (status response) (statusText response) d in
    if windowed sp then
      handleMultiple (default 0 (startPage sp)) (default 0 (endPage sp))
                     url response (toJson sp) (toCsv sp)
    else if retriveAllPages sp then
      handleAll fuel url response (toJson sp) (toCsv sp)
    else
      (if truthyStr (toJson sp)
       then emit (WriteFileSync (default "" (toJson sp) +:+ ".json")
                                (DocWorks (data response)))
       else ret tt) >>
      (if truthyStr (toCsv sp)
       then emit (ConvertToCSV (results (data response))
                               (default "" (toCsv sp)))
       else ret tt) >>
      ret (data response)
  else throw (JsError (errorMessage response)).

Definition authors : nat → SearchParameters.t → M Works :=
  listing "authors" validateAuthorParameters
          (handleMultipleAuthorsPages E) (handleAllAuthorsPages E).
Definition sources : nat → SearchParameters.t → M Works :=
  listing "sources" validateSourcesParameters
          (handleMultipleSourcesPages E) (handleAllSourcesPages E).
Definition institutions : nat → SearchParameters.t → M Works :=
  listing "institutions" validateInstitutionsParameters
          (handleMultipleInstitutionsPages E) (handleAllInstitutionsPages E).
Definition topics : nat → SearchParameters.t → M Works :=
  listing "topics" validateTopicsParameters
          (handleMultipleTopicsPages E) (handleAllTopicsPages E).

End Facade.

(** ** The list methods over their imports

    The same methods with everything they import from [./utils] left
    open, so that what is proved of them is proved of [index.ts] whatever
    the helpers do.  A helper is taken as it is called: from its arguments
    to an outcome and the events it causes; the chunked driver, for which
    [works] does not wait, from its arguments to what it does before and
    after it first suspends.  The response handed to a driver is handed by
    value: a driver that wrote into the object it was given would be
    outside this reading. *)

Record Imports : Type := mkImports {
  (* ./utils/works *)
  imp_validateParameters :
    bool → option Z → option Z → option string → option Z →
    option string → option string → M unit;
  imp_handleMultiplePages :
    Z → Z → string → AxiosResponse Works → option string → option string →
    bool → M Works;
  imp_handleAllPages :
    string → AxiosResponse Works → option string → option string → bool →
    M Works;
  imp_handleAllPagesInChunks :
    string → AxiosResponse Works → option string → option string → bool →
    Z → Started;
  (* ./utils/helpers *)
  imp_getCursorByPage : string → option Z → option Z → M string
}.

Section FacadeOver.
Context (I : Imports) (E : Env) (this : OpenAlex).

Import SearchParameters.

(** [works(searchParameters)], lines 160-275. *)
Definition worksOver (searchParameters : SearchParameters.t) : M Works :=
  let sp := searchParameters in
  let perPage := perPage sp in
  let page := page sp in
  imp_validateParameters I (retriveAllPages sp) (startPage sp) (endPage sp)
    (searchField sp) (chunkSize sp) (toCsv sp) (toJson sp) >>
  let url := buildUrl E (url this) "works" (search sp) (searchField sp)
                      (filter sp) (groupBy sp) (sortBy sp) in
  let! cursor := imp_getCursorByPage I url page perPage in
  let perPage := if retriveAllPages sp then Some 200 else perPage in
  let cursor := if retriveAllPages sp then "*" else cursor in
  let! '(page, cursor) :=
    if windowed sp
    then let! c := imp_getCursorByPage I url (startPage sp) perPage in
         ret (startPage sp, c)
    else ret (page, cursor) in
  let url := appendCursorToUrl E url perPage cursor (retriveAllPages sp) in
  let! response := GET E Listing url in
  if bool_decide (status response = 200) then
    (* response.data.meta.page = page ?? 1 *)
    let d := mkWorks (results (data response))
                     (Meta.setPage (default 1 page) (meta (data response))) in
    (* response.data.results = response.data.results.map(...) *)
    let d := if AbstractArrayToString sp
             then mkWorks (abstractToString E <$> results d) (meta d)
             else d in
    let response := mkResponse (status response) (statusText response) d in
    let finish : M Works :=
      (if truthyStr (toJson sp)
       then emit (WriteFileSync (default "" (toJson sp) +:+ ".json")
                                (DocWorks (data response)))
       else ret tt) >>
      (if truthyStr (toCsv sp)
       then emit (ConvertToCSV (results (data response))
                               (default "" (toCsv sp)))
       else ret tt) >>
      ret (mkWorks (results (data response))
                   (Meta.setUrl url (meta (data response)))) in
    if windowed sp then
      imp_handleMultiplePages I (default 0 (startPage sp))
        (default 0 (endPage sp)) url response (toJson sp) (toCsv sp)
        (AbstractArrayToString sp)
    else if retriveAllPages sp then
      if truthyNum (chunkSize sp) then
        detach (imp_handleAllPagesInChunks I url response (toJson sp)
                  (toCsv sp) (AbstractArrayToString sp)
                  (default 0 (chunkSize sp))) >>
        finish
      else
        imp_handleAllPages I url response (toJson sp) (toCsv sp)
                           (AbstractArrayToString sp)
    else finish
  else throw (JsError (errorMessage response)).

(** [authors], [sources], [institutions], [topics]: lines 406-483,
    495-572, 585-668 and 680-758, one text with the collection name and the
    helpers exchanged. *)
Definition listingOver (collection : string)
    (validate : bool → option Z → option Z → option string → M unit)
    (getCursor : string → option Z → option Z → M string)
    (handleMultiple : Z → Z → string → AxiosResponse Works →
                      option string → option string → M Works)
    (handleAll : string → AxiosResponse Works →
                 option string → option string → M Works)
    (searchParameters : SearchParameters.t) : M Works :=
  let sp := searchParameters in
  let perPage := perPage sp in
  let page := page sp in
  validate (retriveAllPages sp) (startPage sp) (endPage sp) (searchField sp) >>
  let url := buildUrl E (url this) collection (search sp) (searchField sp)
                      (filter sp) (groupBy sp) (sortBy sp) in
  let! cursor := getCursor url page perPage in
  let perPage := if retriveAllPages sp then Some 200 else perPage in
  let cursor := if retriveAllPages sp then "*" else cursor in
  let! '(page, cursor) :=
    if windowed sp
    then let! c := getCursor url (startPage sp) perPage in
         ret (startPage sp, c)
    else ret (page, cursor) in
  let url := appendCursorToUrl E url perPage cursor (retriveAllPages sp) in
  let! response := GET E Listing url in
  if bool_decide (status response = 200) then
    let d := mkWorks (results (data response))
                     (Meta.setPage (default 1 page) (meta (data response))) in
    let response := mkResponse (status response) (statusText response) d in
    if windowed sp then
      handleMultiple (default 0 (startPage sp)) (default 0 (endPage sp))
                     url response (toJson sp) (toCsv sp)
    else if retriveAllPages sp then
      handleAll url response (toJson sp) (toCsv sp)
    else
      (if truthyStr (toJson sp)
       then emit (WriteFileSync (default "" (toJson sp) +:+ ".json")
                                (DocWorks (data response)))
       else ret tt) >>
      (if truthyStr (toCsv sp)
       then emit (ConvertToCSV (results (data response))
                               (default "" (toCsv sp)))
       else ret tt) >>
      ret (data response)
  else throw (JsError (errorMessage response)).

End FacadeOver.

(** The helpers as they are modelled above, as imports. *)
Definition modelled (E : Env) (fuel : nat) : Imports :=
  mkImports validateParameters (handleMultiplePages E)
            (handleAllPages E fuel)
            (λ u r toJson toCsv A chunkSize,
               start (handleAllPagesInChunks E fuel u r toJson toCsv A
                                             chunkSize))
            (getCursorByPage E).

(** The same request with other values for the two options that only
    [works] reads. *)
Definition withWorksOptions (abstract : bool) (chunkSize : option Z)
    (sp : SearchParameters.t) : SearchParameters.t :=
  let 'SearchParameters.mk a1 a2 a3 a4 a5 a6 a7 a8 a9 a10 a11 a12 _ _ := sp in
  SearchParameters.mk a1 a2 a3 a4 a5 a6 a7 a8 a9 a10 a11 a12
                      abstract chunkSize.

(** ** Vocabulary of the statements *)

(** A response that is neither 2xx nor 404. *)
Definition failed {T} (r : AxiosResponse T) : Prop :=
  ¬ (200 ≤ status r ≤ 299) ∧ status r ≠ 404.

(** The error carries the status code and status text of the response:
    as the message the class builds, or as a transport error. *)
Definition carries {T} (e : Error) (r : AxiosResponse T) : Prop :=
  e = JsError (errorMessage r) ∨ e = TransportError (status r) (statusText r).

(** Every failed fetch of the run is its last event, and the run ends in
    a thrown error that carries the status of that response. *)
Definition surfaces (E : Env) (k : PayloadKind) {A} (m : M A) : Prop :=
  ∀ es1 u es2,
    trace m = es1 ++ Request u :: es2 →
    failed (GET_response E k u) →
    es2 = [] ∧ ∃ e, outcome m = Thrown e ∧ carries e (GET_response E k u).

(** The run [m] is one fetch of [u] checked against status 200: one
    request and nothing else; the payload if the status is exactly 200,
    an error with the status code and text otherwise. *)
Definition ChecksFor200 (E : Env) (k : PayloadKind) (u : string)
    (m : M (Payload k)) : Prop :=
  trace m = [Request u] ∧
  (status (GET_response E k u) = 200 →
   outcome m = Returned (data (GET_response E k u))) ∧
  (status (GET_response E k u) ≠ 200 →
   outcome m = Thrown (JsError (errorMessage (GET_response E k u)))).

(** The arguments of the page request of a list method: the page size,
    the page number written into [meta.page], and the cursor, from the
    cursor [c0] resolved for [page] and the cursor [c1] resolved for
    [startPage]. *)
Definition requestPerPage (sp : SearchParameters.t) : option Z :=
  if SearchParameters.retriveAllPages sp then Some 200
  else SearchParameters.perPage sp.

Definition requestPage (sp : SearchParameters.t) : option Z :=
  if windowed sp then SearchParameters.startPage sp
  else SearchParameters.page sp.

Definition requestCursor (sp : SearchParameters.t) (c0 c1 : string) : string :=
  if windowed sp then c1
  else if SearchParameters.retriveAllPages sp then "*" else c0.

Definition baseUrl (E : Env) (this : OpenAlex) (collection : string)
    (sp : SearchParameters.t) : string :=
  buildUrl E (url this) collection (SearchParameters.search sp)
           (SearchParameters.searchField sp) (SearchParameters.filter sp)
           (SearchParameters.groupBy sp) (SearchParameters.sortBy sp).

Definition requestUrl (E : Env) (this : OpenAlex) (collection : string)
    (sp : SearchParameters.t) (c0 c1 : string) : string :=
  appendCursorToUrl E (baseUrl E this collection sp) (requestPerPage sp)
                    (requestCursor sp c0 c1)
                    (SearchParameters.retriveAllPages sp).

(** The validation call of [works] and of the four other list methods. *)
Definition worksValidation (I : Imports) (sp : SearchParameters.t) : M unit :=
  imp_validateParameters I (SearchParameters.retriveAllPages sp)
    (SearchParameters.startPage sp) (SearchParameters.endPage sp)
    (SearchParameters.searchField sp) (SearchParameters.chunkSize sp)
    (SearchParameters.toCsv sp) (SearchParameters.toJson sp).

Definition listingValidation
    (validate : bool → option Z → option Z → option string → M unit)
    (sp : SearchParameters.t) : M unit :=
  validate (SearchParameters.retriveAllPages sp)
    (SearchParameters.startPage sp) (SearchParameters.endPage sp)
    (SearchParameters.searchField sp).

(** Validation and the cursor resolutions of a list method have returned:
    the resolution for [page] with cursor [c0], and in a window the one
    for [startPage] with cursor [c1]; [t] is what they did. *)
Definition Prepared (validate : M unit)
    (getCursor : string → option Z → option Z → M string)
    (u : string) (sp : SearchParameters.t) (c0 c1 : string)
    (t : list Event) : Prop :=
  ∃ tv t0 t1,
    validate = (Returned tt, tv) ∧
    getCursor u (SearchParameters.page sp) (SearchParameters.perPage sp)
    = (Returned c0, t0) ∧
    (if windowed sp
     then getCursor u (SearchParameters.startPage sp) (requestPerPage sp)
          = (Returned c1, t1)
     else t1 = []) ∧
    t = tv ++ t0 ++ t1.

(** [response.data] as a list method has it after setting [meta.page],
    and, in [works] with the option set, converting the results. *)
Definition received (E : Env) (abstract : bool) (page : option Z)
    (r : AxiosResponse Works) : Works :=
  mkWorks (if abstract then abstractToString E <$> results (data r)
           else results (data r))
          (Meta.setPage (default 1 page) (meta (data r))).

(** The events of the single-shot export of [d]. *)
Definition singleExport (toJson toCsv : option string) (d : Works)
  : list Event :=
  (if truthyStr toJson
   then [WriteFileSync (default "" toJson +:+ ".json") (DocWorks d)]
   else []) ++
  (if truthyStr toCsv
   then [ConvertToCSV (results d) (default "" toCsv)]
   else []).


Section Chain.
Context (E : Env) (url : string) (perPage : option Z) (drainAll : bool).

(** The URL of the page at a cursor, and the response the remote gives. *)
Definition pageUrl (cursor : string) : string :=
  appendCursorToUrl E url perPage cursor drainAll.
Definition pageAt (cursor : string) : AxiosResponse Works :=
  GET_response E Listing (pageUrl cursor).

(** The fetch at this cursor is no transport error. *)
Definition lands (cursor : string) : Prop :=
  status (pageAt cursor) = 200 ∨ status (pageAt cursor) = 404.

(** The cursor that follows: the page's next cursor, the same cursor again
    where the page has none. *)
Definition nextOf (cursor : string) : string :=
  if bool_decide (status (pageAt cursor) = 200)
  then default cursor (Meta.next_cursor (meta (data (pageAt cursor))))
  else cursor.

(** The cursor reached after [k] pages; it yields page [k + 1]. *)
Fixpoint cursorAfter (k : nat) : string :=
  match k with
  | O => "*"
  | S k' => nextOf (cursorAfter k')
  end.

(** The remote serves, from [cursor] on, exactly these pages under these
    cursors, each with status 200, the last one without a next cursor. *)
Inductive Collection : string → list (string * Works) → Prop :=
| Collection_last cursor :
    status (pageAt cursor) = 200 →
    Meta.next_cursor (meta (data (pageAt cursor))) = None →
    Collection cursor [(cursor, data (pageAt cursor))]
| Collection_next cursor cursor' pages :
    status (pageAt cursor) = 200 →
    Meta.next_cursor (meta (data (pageAt cursor))) = Some cursor' →
    Collection cursor' pages →
    Collection cursor ((cursor, data (pageAt cursor)) :: pages).

(** What is left of a collection after a page with this next cursor. *)
Definition Remaining (next : option string) (rest : list (string * Works))
  : Prop :=
  match next with
  | Some cursor => Collection cursor rest
  | None => rest = []
  end.

(** The drivers are handed a URL that carries a cursor already; putting
    another cursor in gives the URL of that cursor's page. *)
Definition CursorLaw : Prop :=
  ∀ c c', replaceCursor E (pageUrl c) c' = pageUrl c'.

End Chain.

(** The results of these pages, in page order, each page post-processed
    as the request asks. *)
Definition gathered (E : Env) (AbstractArrayToString : bool)
    (pages : list (string * Works)) : list Obj :=
  concat ((λ cp, postprocess E AbstractArrayToString (results cp.2)) <$> pages).







(** The results a call resolves with, if it does. *)
Definition returnedResults (o : Outcome Works) : option (list Obj) :=
  match o with Returned w => Some (results w) | _ => None end.

(** The same request with the [AbstractArrayToString] option set to [b]. *)
Definition withAbstractArrayToString (b : bool) (sp : SearchParameters.t)
  : SearchParameters.t :=
  let 'SearchParameters.mk a1 a2 a3 a4 a5 a6 a7 a8 a9 a10 a11 a12 _ a14 := sp in
  SearchParameters.mk a1 a2 a3 a4 a5 a6 a7 a8 a9 a10 a11 a12 b a14.

(** The payload with [f] applied to every result. *)
Definition mapResults (f : Obj → Obj) (w : Works) : Works :=
  mkWorks (f <$> results w) (meta w).

Definition mapOutcome {A B} (f : A → B) (o : Outcome A) : Outcome B :=
  match o with
  | Returned a => Returned (f a)
  | Thrown e => Thrown e
  | OutOfFuel => OutOfFuel
  end.

(** ** A synthetic remote, for concrete runs *)

Module Synthetic.

Fixpoint startsWith (p s : string) : bool :=
  match p, s with
  | EmptyString, _ => true
  | String a p', String b s' => Ascii.eqb a b && startsWith p' s'
  | String _ _, EmptyString => false
  end.

(** [u] up to and including its ["&cursor="]. *)
Fixpoint uptoCursor (u : string) : string :=
  match u with
  | EmptyString => EmptyString
  | String a u' =>
      if startsWith "&cursor=" u then "&cursor="
      else String a (uptoCursor u')
  end.

Definition perPageText (perPage : option Z) : string :=
  match perPage with Some n => pretty n | None => "25" end.

Definition item (id : string) : Obj := {[ "id" := JStr id ]}.

Definition indexed (id : string) : Obj :=
  {[ "id" := JStr id;
     "abstract_inverted_index" := JObj {[ "Hello" := JArr [JNum 0] ]} ]}.

Definition pageOf (ids : list string) (perPage : Z) (next : option string)
  : Works :=
  mkWorks (item <$> ids) (Meta.mk 5 None perPage next None).

Definition ok {T} (d : T) : AxiosResponse T := mkResponse 200 "OK" d.

Definition noEntity : Obj := ∅.

(** A remote given by a table from URLs to list responses and one from
    URLs to entity responses; every other URL answers [fallback]. *)
Definition remote (listings : list (string * AxiosResponse Works))
    (entities : list (string * AxiosResponse Obj))
    (fallback : Z * string) : Env :=
  mkEnv
    (λ k, match k with
          | Entity => λ u,
              default (mkResponse fallback.1 fallback.2 noEntity)
                      ((λ x, x.2.2) <$> list_find (λ e, e.1 = u) entities)
          | Listing => λ u,
              default (mkResponse fallback.1 fallback.2 emptyPage)
                      ((λ x, x.2.2) <$> list_find (λ e, e.1 = u) listings)
          end)
    (λ base collection _ _ _ _ _, base +:+ "/" +:+ collection)
    (λ u perPage cursor _,
       u +:+ "?per-page=" +:+ perPageText perPage +:+ "&cursor=" +:+ cursor)
    (λ _, "Hello")
    (λ u cursor, uptoCursor u +:+ cursor).

Definition client : OpenAlex := new_OpenAlex None None.

Definition request (perPage page : option Z) (drainAll : bool)
    (toJson : option string) (startPage endPage : option Z)
    (abstract : bool) (chunkSize : option Z) : SearchParameters.t :=
  SearchParameters.mk None None perPage page drainAll toJson None
                      startPage endPage None None None abstract chunkSize.

Definition worksUrl (perPage cursor : string) : string :=
  "https://api.openalex.org/works?per-page=" +:+ perPage
  +:+ "&cursor=" +:+ cursor.

(** Five pages, nine results, under the cursors [*], [c2], ..., [c5]. *)
Definition fivePages (perPage : string) (size : Z)
  : list (string * AxiosResponse Works) :=
  [ (worksUrl perPage "*", ok (pageOf ["a1"; "a2"] size (Some "c2")));
    (worksUrl perPage "c2", ok (pageOf ["b1"; "b2"] size (Some "c3")));
    (worksUrl perPage "c3", ok (pageOf ["c1"; "c2"] size (Some "c4")));
    (worksUrl perPage "c4", ok (pageOf ["d1"; "d2"] size (Some "c5")));
    (worksUrl perPage "c5", ok (pageOf ["e1"] size None)) ].

(** The same collection served at page sizes 2 and 200. *)
Definition library : Env :=
  remote (fivePages "2" 2 ++ fivePages "200" 200) [] (404, "Not Found").

Definition worksBase : string := "https://api.openalex.org/works".

(** The pages of [library] at a page size, with their cursors. *)
Definition shelf (perPage : option Z) (drainAll : bool)
  : list (string * Works) :=
  (λ c, (c, data (pageAt library worksBase perPage drainAll c)))
    <$> ["*"; "c2"; "c3"; "c4"; "c5"].





(** One page of three works: one with an inverted index, one without, one
    whose inverted index is [null]. *)
Definition abstracts : Env :=
  remote [ (worksUrl "25" "*",
            ok (mkWorks [ indexed "w1"; item "w2";
                          <["abstract_inverted_index" := JNull]> (item "w3") ]
                        (Meta.mk 3 None 25 None None))) ]
         [] (404, "Not Found").

(** The modelled helpers, with a given chunked driver: one that fails at
    once, and one that logs, waits for a timer and then writes a file. *)
Definition withChunkedDriver (E : Env) (driver : Started) : Imports :=
  mkImports validateParameters (handleMultiplePages E) (handleAllPages E 0)
            (λ _ _ _ _ _ _, driver) (getCursorByPage E).

Definition failing : Started :=
  mkStarted [] [] (Thrown (TransportError 500 "Internal Server Error")).

Definition waiting : Started :=
  mkStarted [ConsoleLog "chunking"]
            [WriteFileSync "late.json" (DocResults [])] (Returned tt).

(** A remote that serves the first page of a drain and answers every
    other URL with status 500; one that serves the library at page size
    200 only. *)
Definition firstPageOnly : Env :=
  remote [ (worksUrl "200" "*", ok (pageOf ["a1"; "a2"] 200 (Some "c2"))) ]
         [] (500, "Internal Server Error").


(** Remotes that answer every URL alike. *)
Definition noContent : Env := remote [] [] (204, "No Content").
Definition notFound : Env := remote [] [] (404, "Not Found").
Definition serverError : Env := remote [] [] (500, "Internal Server Error").

End Synthetic.

(** * Properties *)

(** ** Single-entity lookups *)

Section LookupFacts.
Context (E : Env) (this : OpenAlex).

Lemma emptyWork_fields id :
  emptyWork id !! "id" = Some (JStr id) ∧
  emptyWork id !! "biblio" = Some (JObj ∅) ∧
  emptyWork id !! "counts_by_year" = Some (JArr []) ∧
  dom (emptyWork id) = {[ "id"; "biblio"; "counts_by_year" ]}.
Proof.
  unfold emptyWork. repeat split.
Qed.

(** [!id] on a string holds of the empty string only. *)
Lemma topic_checks_id id :
  id = "" → topic E this id = (Thrown (JsError "Topic id is required"), []).
Proof. intros ->. reflexivity. Qed.

Lemma work_fetches id externalIds :
  requests (trace (work E this id externalIds))
  = [entityUrl this "works" id externalIds].
Proof.
  unfold work, GET; cbn. repeat case_bool_decide; reflexivity.
Qed.

Lemma thrower_fetches collection id externalIds :
  trace (let! response := GET E Entity (entityUrl this collection id externalIds) in
         if bool_decide (status response = 200) then ret (data response)
         else throw (JsError (errorMessage response)))
  = [Request (entityUrl this collection id externalIds)].
Proof. unfold GET; cbn. by case_bool_decide. Qed.

End LookupFacts.

(** ** The monad *)

Lemma bind_returned {A B} (m : M A) (k : A → M B) a es o es' :
  m = (Returned a, es) → k a = (o, es') → bind m k = (o, es ++ es').
Proof. intros -> Hk. cbn. by rewrite Hk. Qed.

Lemma outcome_bind {A B} (m : M A) (k : A → M B) :
  outcome (bind m k)
  = match outcome m with
    | Returned a => outcome (k a)
    | Thrown e => Thrown e
    | OutOfFuel => OutOfFuel
    end.
Proof. destruct m as [[a|e|] es]; cbn; [by destruct (k a)|done..]. Qed.

Lemma received_eq E (abstract : bool) page (r : AxiosResponse Works) :
  (if abstract
   then mkWorks (abstractToString E <$>
                   results (mkWorks (results (data r))
                              (Meta.setPage (default 1 page) (meta (data r)))))
                (meta (mkWorks (results (data r))
                         (Meta.setPage (default 1 page) (meta (data r)))))
   else mkWorks (results (data r))
                (Meta.setPage (default 1 page) (meta (data r))))
  = received E abstract page r.
Proof. by destruct abstract. Qed.

Lemma finish_run toJson toCsv (d w : Works) :
  ((if truthyStr toJson
    then emit (WriteFileSync (default "" toJson +:+ ".json") (DocWorks d))
    else ret tt) >>
   (if truthyStr toCsv
    then emit (ConvertToCSV (results d) (default "" toCsv))
    else ret tt) >>
   ret w)
  = (Returned w, singleExport toJson toCsv d).
Proof.
  unfold singleExport. destruct (truthyStr toJson), (truthyStr toCsv);
    reflexivity.
Qed.

(** ** Runs that leave no task behind *)

Lemma own_app es1 es2 : own (es1 ++ es2) = own es1 ++ own es2.
Proof. apply omap_app. Qed.

Lemma leftRunning_app es1 es2 :
  leftRunning (es1 ++ es2) = leftRunning es1 ++ leftRunning es2.
Proof. unfold leftRunning. by rewrite omap_app, concat_app. Qed.

Lemma plain_own es : plain es → own es = es ∧ leftRunning es = [].
Proof.
  induction 1 as [|ev es Hev _ [IHo IHl]]; [done|].
  destruct ev; try done; (split; [cbn; by f_equal|exact IHl]).
Qed.






Lemma plain_singleExport toJson toCsv d : plain (singleExport toJson toCsv d).
Proof.
  unfold singleExport.
  destruct (truthyStr toJson), (truthyStr toCsv); by repeat constructor.
Qed.

Lemma chronological_detached t u before after o export :
  plain t → plain before → plain export →
  chronological (t ++ Request u :: before ++ Detached after o :: export)
  = t ++ Request u :: before ++ export ++ after.
Proof.
  intros [Ht Ht']%plain_own [Hb Hb']%plain_own [He He']%plain_own.
  change (t ++ Request u :: before ++ Detached after o :: export)
    with (t ++ [Request u] ++ before ++ [Detached after o] ++ export).
  unfold chronological.
  rewrite !own_app, !leftRunning_app, Ht, Ht', Hb, Hb', He, He'.
  cbn. rewrite !app_nil_r, <- app_assoc. cbn. by rewrite <- app_assoc.
Qed.

(** ** Failed fetches surface *)

Section Surfacing.
Context (E : Env) (k : PayloadKind).

Lemma surfaces_silent {A} (m : M A) :
  requests (trace m) = [] → surfaces E k m.
Proof.
  intros Hq es1 u es2 Htr _. rewrite Htr in Hq. unfold requests in Hq.
  rewrite omap_app in Hq. cbn in Hq. by destruct (omap _ es1).
Qed.

Lemma surfaces_ret {A} (a : A) : surfaces E k (ret a).
Proof. by apply surfaces_silent. Qed.

Lemma surfaces_throw {A} e : surfaces E k (@throw A e).
Proof. by apply surfaces_silent. Qed.

Lemma surfaces_timeout {A} : surfaces E k (@timeout A).
Proof. by apply surfaces_silent. Qed.

Lemma surfaces_bind {A B} (m : M A) (f : A → M B) :
  surfaces E k m → (∀ a, surfaces E k (f a)) → surfaces E k (bind m f).
Proof.
  intros Hm Hf es1 u es2 Htr Hbad.
  destruct m as [[a|e|] es]; cbn in *.
  2,3: destruct (Hm _ _ _ Htr Hbad) as [-> (e' & [= <-] & Hc)]; eauto.
  destruct (f a) as [o es'] eqn:Hfa. cbn in *.
  apply app_eq_inv in Htr as [(l & -> & Hl)|(l & -> & Hl)].
  - destruct l as [|ev l]; cbn in Hl.
    + specialize (Hf a [] u es2). rewrite Hfa in Hf. cbn in Hf.
      by destruct (Hf (eq_sym Hl) Hbad) as [-> He].
    + injection Hl as <- ->.
      destruct (Hm es1 u l eq_refl Hbad) as [_ (e & He & _)]. discriminate.
  - specialize (Hf a l u es2). rewrite Hfa in Hf. cbn in Hf.
    destruct (Hf Hl Hbad) as [-> He]. done.
Qed.

Lemma surfaces_fetch {A} u (f : AxiosResponse (Payload k) → M A) :
  (failed (GET_response E k u) →
     ∃ e, f (GET_response E k u) = (Thrown e, []) ∧
          carries e (GET_response E k u)) →
  surfaces E k (f (GET_response E k u)) →
  surfaces E k (bind (GET E k u) f).
Proof.
  intros Hbad Hf es1 u' es2 Htr Hfail. unfold GET in Htr. cbn in Htr.
  destruct (f (GET_response E k u)) as [o es'] eqn:Hfr. cbn in *.
  destruct es1 as [|ev es1]; cbn in Htr.
  - injection Htr as -> ->. destruct (Hbad Hfail) as (e & [= -> ->] & He).
    rewrite Hfr. eauto.
  - injection Htr as _ ->. rewrite Hfr. by apply (Hf es1 u' es2).
Qed.

(** The shape of every fetch of the class but the one in [work]. *)
Lemma surfaces_checked {A} u (body : AxiosResponse (Payload k) → M A) :
  (∀ r, surfaces E k (body r)) →
  surfaces E k
    (let! response := GET E k u in
     if bool_decide (status response = 200) then body response
     else throw (JsError (errorMessage response))).
Proof.
  intros Hbody. apply surfaces_fetch.
  - intros [Hnot _]. rewrite bool_decide_eq_false_2 by lia.
    eexists; split; [done|by left].
  - case_bool_decide; [apply Hbody|apply surfaces_throw].
Qed.

End Surfacing.

Lemma surfaces_fetchPage E u : surfaces E Listing (fetchPage E u).
Proof.
  unfold fetchPage. apply surfaces_fetch.
  - intros [Hnot H404]. rewrite !bool_decide_eq_false_2 by lia.
    eexists; split; [done|by right].
  - repeat case_bool_decide;
      [apply surfaces_ret|apply surfaces_ret|apply surfaces_throw].
Qed.

Lemma surfaces_resolveFrom E n url perPage cursor :
  surfaces E Listing (resolveFrom E n url perPage cursor).
Proof.
  revert cursor. induction n as [|n IH]; intros cursor; cbn.
  - apply surfaces_ret.
  - apply surfaces_bind; [apply surfaces_fetchPage|intros p; apply IH].
Qed.

Lemma surfaces_getCursorByPage E url page perPage :
  surfaces E Listing (getCursorByPage E url page perPage).
Proof.
  unfold getCursorByPage. case_bool_decide;
    [apply surfaces_ret|apply surfaces_resolveFrom].
Qed.

Lemma requests_exportWorks toJson toCsv d :
  requests (trace (exportWorks toJson toCsv d)) = [].
Proof. unfold exportWorks. by destruct (truthyStr toJson), (truthyStr toCsv). Qed.

Lemma surfaces_advance E n url A cursor acc :
  surfaces E Listing (advance E n url A cursor acc).
Proof.
  revert cursor acc. induction n as [|n IH]; intros [c|] acc; cbn;
    try apply surfaces_ret.
  apply surfaces_bind; [apply surfaces_fetchPage|intros p; apply IH].
Qed.

Lemma surfaces_drain E fuel url A cursor acc :
  surfaces E Listing (drain E fuel url A cursor acc).
Proof.
  revert cursor acc. induction fuel as [|n IH]; intros [c|] acc; cbn;
    try apply surfaces_ret; try apply surfaces_timeout.
  apply surfaces_bind; [apply surfaces_fetchPage|intros p; apply IH].
Qed.

Lemma surfaces_handleMultiplePages E s e url response toJson toCsv A :
  surfaces E Listing (handleMultiplePages E s e url response toJson toCsv A).
Proof.
  unfold handleMultiplePages. apply surfaces_bind; [apply surfaces_advance|].
  intros all. apply surfaces_bind; [|intros _; apply surfaces_ret].
  apply surfaces_silent, requests_exportWorks.
Qed.

Lemma surfaces_handleAllPages E fuel url response toJson toCsv A :
  surfaces E Listing (handleAllPages E fuel url response toJson toCsv A).
Proof.
  unfold handleAllPages. apply surfaces_bind; [apply surfaces_drain|].
  intros all. apply surfaces_bind; [|intros _; apply surfaces_ret].
  apply surfaces_silent, requests_exportWorks.
Qed.

Section FacadeSurfacing.
Context (E : Env) (this : OpenAlex).
Import SearchParameters.

Lemma requests_validateParameters r s e f c tc tj :
  requests (trace (validateParameters r s e f c tc tj)) = [].
Proof.
  unfold validateParameters.
  by destruct (r && _), (truthyNum s && negb (truthyNum e)).
Qed.

Lemma surfaces_resolution (sp : SearchParameters.t) url cursor :
  surfaces E Listing
    (if windowed sp
     then let! c := getCursorByPage E url (startPage sp)
                      (if retriveAllPages sp then Some 200 else perPage sp) in
          ret (startPage sp, c)
     else ret (page sp, cursor)).
Proof.
  destruct (windowed sp); [|apply surfaces_ret].
  apply surfaces_bind; [apply surfaces_getCursorByPage|].
  intros c. apply surfaces_ret.
Qed.

Ltac surfacing :=
  repeat first
    [ apply surfaces_ret
    | apply surfaces_handleMultiplePages
    | apply surfaces_handleAllPages
    | apply surfaces_getCursorByPage
    | apply surfaces_resolution
    | apply surfaces_silent; reflexivity
    | apply surfaces_silent, requests_validateParameters
    | apply surfaces_bind; [|intros ?]
    | match goal with
      | |- surfaces _ _ (if ?b then _ else _) => destruct b
      end ].

Lemma surfaces_works fuel sp :
  retriveAllPages sp && truthyNum (chunkSize sp) = false →
  surfaces E Listing (works E this fuel sp).
Proof.
  intros Hmode. unfold works.
  apply surfaces_bind; [surfacing|intros _].
  apply surfaces_bind; [surfacing|intros cursor].
  apply surfaces_bind; [surfacing|intros [page c]].
  apply surfaces_checked. intros r. cbv zeta.
  destruct (windowed sp); [surfacing|].
  destruct (retriveAllPages sp); cbn in Hmode; [rewrite Hmode|]; surfacing.
Qed.

Lemma surfaces_listing collection validate handleMultiple handleAll fuel sp :
  (∀ r s e f, requests (trace (validate r s e f)) = []) →
  (∀ s e u r tj tc, surfaces E Listing (handleMultiple s e u r tj tc)) →
  (∀ n u r tj tc, surfaces E Listing (handleAll n u r tj tc)) →
  surfaces E Listing
    (listing E this collection validate handleMultiple handleAll fuel sp).
Proof.
  intros Hv Hm Ha. unfold listing.
  apply surfaces_bind; [apply surfaces_silent, Hv|intros _].
  apply surfaces_bind; [apply surfaces_getCursorByPage|intros cursor].
  apply surfaces_bind; [apply surfaces_resolution|intros [page c]].
  apply surfaces_checked. intros r. cbv zeta.
  destruct (windowed sp); [apply Hm|].
  destruct (retriveAllPages sp); [apply Ha|].
  surfacing.
Qed.

Lemma surfaces_others fuel sp :
  surfaces E Listing (authors E this fuel sp) ∧
  surfaces E Listing (sources E this fuel sp) ∧
  surfaces E Listing (institutions E this fuel sp) ∧
  surfaces E Listing (topics E this fuel sp).
Proof.
  split; [|split; [|split]]; apply surfaces_listing;
    intros; first [apply requests_validateParameters
                  |apply surfaces_handleMultiplePages
                  |apply surfaces_handleAllPages].
Qed.

End FacadeSurfacing.

(** ** What the lookups do with a response *)

(** C1, as amended.  Of the single-entity lookups only [work] answers a
    404 response with a placeholder: after its request it logs
    [Work with id <id> not found], returns the object
    [{ id, biblio: {}, counts_by_year: [] }] carrying the requested id, and
    does not throw.  [author], [source], [institution] and [topic] throw
    [Error 404: <status text>] after their request and log nothing. *)
Theorem lookup_not_found E this id externalIds :
  let address collection := entityUrl this collection id externalIds in
  let answer collection := GET_response E Entity (address collection) in
  let topicAddress := url this +:+ "/topics/" +:+ id in
  let topicAnswer := GET_response E Entity topicAddress in
  (status (answer "works") = 404 →
     work E this id externalIds
     = (Returned (emptyWork id),
        [Request (address "works");
         ConsoleLog ("Work with id " +:+ id +:+ " not found")]) ∧
     emptyWork id !! "id" = Some (JStr id) ∧
     emptyWork id !! "biblio" = Some (JObj ∅) ∧
     emptyWork id !! "counts_by_year" = Some (JArr []) ∧
     dom (emptyWork id) = {[ "id"; "biblio"; "counts_by_year" ]}) ∧
  (status (answer "authors") = 404 →
     author E this id externalIds
     = (Thrown (JsError ("Error 404: " +:+ statusText (answer "authors"))),
        [Request (address "authors")])) ∧
  (status (answer "sources") = 404 →
     source E this id externalIds
     = (Thrown (JsError ("Error 404: " +:+ statusText (answer "sources"))),
        [Request (address "sources")])) ∧
  (status (answer "institutions") = 404 →
     institution E this id externalIds
     = (Thrown (JsError ("Error 404: "
                         +:+ statusText (answer "institutions"))),
        [Request (address "institutions")])) ∧
  (id ≠ "" → status topicAnswer = 404 →
     topic E this id
     = (Thrown (JsError ("Error 404: " +:+ statusText topicAnswer)),
        [Request topicAddress])).
Proof.
  cbv zeta. split; [|split; [|split; [|split]]].
  - intros H. split; [|apply emptyWork_fields].
    unfold work, GET. cbn in *. rewrite H. reflexivity.
  - intros H. unfold author, GET, errorMessage. cbn in *. rewrite H. reflexivity.
  - intros H. unfold source, GET, errorMessage. cbn in *. rewrite H. reflexivity.
  - intros H. unfold institution, GET, errorMessage. cbn in *. rewrite H.
    reflexivity.
  - intros Hid H. unfold topic, GET, errorMessage.
    rewrite bool_decide_eq_false_2 by done. cbn in *. rewrite H. reflexivity.
Qed.

Lemma lookup_not_found_witness :
  work Synthetic.notFound Synthetic.client "W1" None
  = (Returned (emptyWork "W1"),
     [Request "https://api.openalex.org/works/W1";
      ConsoleLog "Work with id W1 not found"]) ∧
  author Synthetic.notFound Synthetic.client "W1" (Some "orcid")
  = (Thrown (JsError "Error 404: Not Found"),
     [Request "https://api.openalex.org/authors/orcid:W1"]) ∧
  topic Synthetic.notFound Synthetic.client "W1"
  = (Thrown (JsError "Error 404: Not Found"),
     [Request "https://api.openalex.org/topics/W1"]).
Proof.
  destruct (lookup_not_found Synthetic.notFound Synthetic.client "W1" None)
    as (Hw & _ & _ & _ & Ht).
  destruct (lookup_not_found Synthetic.notFound Synthetic.client "W1"
              (Some "orcid")) as (_ & Ha & _).
  split; [apply Hw; reflexivity|].
  split; [apply Ha; reflexivity|].
  apply Ht; [discriminate|reflexivity].
Defined.

(** C1 as stated fails: an author lookup answered with 404 throws. *)
Lemma author_not_found_throws :
  status (GET_response Synthetic.notFound Entity
            (entityUrl Synthetic.client "authors" "A1" None)) = 404 ∧
  author Synthetic.notFound Synthetic.client "A1" None
  = (Thrown (JsError "Error 404: Not Found"),
     [Request "https://api.openalex.org/authors/A1"]).
Proof. split; reflexivity. Qed.

(** What a chunked drain comes to: [works] with [retriveAllPages] and a
    [chunkSize]. *)
Lemma chunked_works_run E this fuel sp :
  SearchParameters.retriveAllPages sp = true →
  truthyNum (SearchParameters.chunkSize sp) = true →
  let u := baseUrl E this "works" sp in
  let pu := appendCursorToUrl E u (Some 200) "*" true in
  let r := GET_response E Listing pu in
  let d := received E (SearchParameters.AbstractArrayToString sp)
                    (SearchParameters.page sp) r in
  let driver :=
    handleAllPagesInChunks E fuel pu (mkResponse (status r) (statusText r) d)
      (SearchParameters.toJson sp) (SearchParameters.toCsv sp)
      (SearchParameters.AbstractArrayToString sp)
      (default 0 (SearchParameters.chunkSize sp)) in
  works E this fuel sp
  = if truthyNum (SearchParameters.startPage sp)
       || truthyNum (SearchParameters.endPage sp)
    then (Thrown ValidationError, [])
    else
      match getCursorByPage E u (SearchParameters.page sp)
                            (SearchParameters.perPage sp) with
      | (Returned _, t0) =>
          if bool_decide (status r = 200)
          then (Returned (mkWorks (results d) (Meta.setUrl pu (meta d))),
                t0 ++ Request pu :: beforeAwait (trace driver)
                   ++ Detached (afterAwait (trace driver))
                               (endingOf (outcome driver))
                   :: singleExport (SearchParameters.toJson sp)
                                   (SearchParameters.toCsv sp) d)
          else (Thrown (JsError (errorMessage r)), t0 ++ [Request pu])
      | (Thrown e, t0) => (Thrown e, t0)
      | (OutOfFuel, t0) => (OutOfFuel, t0)
      end.
Proof.
  intros Hdrain Hchunk. cbv zeta.
  unfold works, validateParameters, windowed, baseUrl. cbv zeta.
  rewrite Hdrain, Hchunk. cbn [andb].
  destruct (truthyNum (SearchParameters.startPage sp)) eqn:Hs; [reflexivity|].
  destruct (truthyNum (SearchParameters.endPage sp)) eqn:He; [reflexivity|].
  cbn [orb andb negb bind ret app].
  destruct (getCursorByPage E _ _ _) as [[c0|e|] t0]; [|reflexivity..].
  cbn [bind ret GET app]. rewrite received_eq.
  case_bool_decide; [|reflexivity].
  rewrite finish_run. unfold detach, start.
  cbn [bind status statusText data ran pending ending].
  by rewrite <- !app_assoc.
Qed.

(** C2, as amended.  In [author], [source], [institution], [topic],
    [ngram], [autoCompleteWorks], in the list methods [authors], [sources],
    [institutions], [topics], and in [works] outside a chunked drain, every
    fetch whose response is neither 2xx nor 404 ends the call: it is the
    last event, and the call throws an error carrying the status code and
    status text.  In a chunked drain the same holds of the fetches [works]
    awaits, those of the cursor resolution and the page request; a failed
    fetch that does not end the call comes after a page request answered
    with 200, it is a fetch of the chunked driver, and the call resolves:
    once the page request is answered with 200 a chunked drain resolves
    whatever the remote answers to other requests.  [work] never throws:
    on a failed fetch it logs [Error <status>: <status text>] and returns
    the placeholder. *)
Theorem failed_fetch_surfaces E this :
  (∀ id externalIds,
     surfaces E Entity (author E this id externalIds) ∧
     surfaces E Entity (source E this id externalIds) ∧
     surfaces E Entity (institution E this id externalIds) ∧
     (∃ o, outcome (work E this id externalIds) = Returned o) ∧
     let address := entityUrl this "works" id externalIds in
     (failed (GET_response E Entity address) →
      work E this id externalIds
      = (Returned (emptyWork id),
         [Request address;
          ConsoleLog (errorMessage (GET_response E Entity address))]))) ∧
  (∀ id, surfaces E Entity (topic E this id) ∧
         surfaces E Entity (ngram E this id)) ∧
  (∀ q, surfaces E Listing (autoCompleteWorks E this q)) ∧
  (∀ fuel sp,
     surfaces E Listing (authors E this fuel sp) ∧
     surfaces E Listing (sources E this fuel sp) ∧
     surfaces E Listing (institutions E this fuel sp) ∧
     surfaces E Listing (topics E this fuel sp)) ∧
  (∀ fuel sp,
     SearchParameters.retriveAllPages sp
       && truthyNum (SearchParameters.chunkSize sp) = false →
     surfaces E Listing (works E this fuel sp)) ∧
  (∀ fuel sp,
     SearchParameters.retriveAllPages sp
       && truthyNum (SearchParameters.chunkSize sp) = true →
     let run := works E this fuel sp in
     let pageRequest :=
       appendCursorToUrl E (baseUrl E this "works" sp) (Some 200) "*" true in
     (∀ es1 u es2,
        trace run = es1 ++ Request u :: es2 →
        failed (GET_response E Listing u) →
        (es2 = [] ∧
         ∃ e, outcome run = Thrown e ∧ carries e (GET_response E Listing u)) ∨
        (∃ t es, es1 = t ++ Request pageRequest :: es ∧
                 status (GET_response E Listing pageRequest) = 200 ∧
                 ∃ w, outcome run = Returned w)) ∧
     (truthyNum (SearchParameters.startPage sp) = false →
      truthyNum (SearchParameters.endPage sp) = false →
      (∃ c0, outcome (getCursorByPage E (baseUrl E this "works" sp)
                        (SearchParameters.page sp)
                        (SearchParameters.perPage sp)) = Returned c0) →
      status (GET_response E Listing pageRequest) = 200 →
      ∃ w, outcome run = Returned w)).
Proof.
  split; [|split; [|split; [|split; [|split]]]].
  - intros id ext. split; [|split; [|split; [|split]]].
    1-3: apply (surfaces_checked E Entity); intros r; apply surfaces_ret.
    + unfold work, GET. cbn. repeat case_bool_decide; eauto.
    + cbv zeta. intros [Hnot H404]. unfold work, GET. cbn [bind].
      rewrite (bool_decide_eq_false_2 (_ = 200)) by lia.
      rewrite (bool_decide_eq_false_2 (_ = 404)) by done. reflexivity.
  - intros id. split.
    + unfold topic. case_bool_decide; [apply surfaces_throw|].
      apply (surfaces_checked E Entity); intros r; apply surfaces_ret.
    + apply (surfaces_checked E Entity); intros r; apply surfaces_ret.
  - intros q. apply (surfaces_checked E Listing); intros r; apply surfaces_ret.
  - intros fuel sp. apply surfaces_others.
  - intros fuel sp. apply surfaces_works.
  - intros fuel sp [Hdrain Hchunk]%andb_true_iff. cbv zeta.
    rewrite (chunked_works_run E this fuel sp Hdrain Hchunk). cbv zeta.
    set (u := baseUrl E this "works" sp).
    set (pu := appendCursorToUrl E u (Some 200) "*" true).
    pose proof (surfaces_getCursorByPage E u (SearchParameters.page sp)
                  (SearchParameters.perPage sp)) as Hpre.
    destruct (truthyNum (SearchParameters.startPage sp)
              || truthyNum (SearchParameters.endPage sp)) eqn:Hwin.
    { split; [intros es1 u' es2 Htr; cbn in Htr; by destruct es1|].
      by intros Hs He; rewrite Hs, He in Hwin. }
    destruct (getCursorByPage E u _ _) as [[c0|e|] t0].
    2,3: split; [|by intros _ _ [c0 [=]]];
         intros es1 u' es2 Htr Hbad; left;
         destruct (Hpre _ _ _ Htr Hbad) as [-> (e' & [= <-] & Hc)]; eauto.
    assert (∀ es1 u' l, t0 = es1 ++ Request u' :: l →
                        failed (GET_response E Listing u') → False) as Hno.
    { intros es1 u' l Ht0 Hbad.
      by destruct (Hpre es1 u' l Ht0 Hbad) as [_ (e & [=] & _)]. }
    case_bool_decide as H200; cbn [outcome trace fst snd].
    2:{ split; [|done]. intros es1 u' es2 Htr Hbad. left.
        apply app_eq_inv in Htr as [(l & Ht0 & Hl)|(l & -> & Hl)].
        - destruct l as [|ev l]; cbn in Hl.
          + injection Hl as -> ->. split; [done|].
            eexists. split; [done|by left].
          + injection Hl as <- _. by destruct (Hno _ _ _ Ht0 Hbad).
        - destruct l as [|ev l]; cbn in Hl.
          + injection Hl as <- <-. split; [done|].
            eexists. split; [done|by left].
          + injection Hl as _ Hl. by destruct l. }
    split; [|eauto].
    intros es1 u' es2 Htr Hbad.
    apply app_eq_inv in Htr as [(l & Ht0 & Hl)|(l & -> & Hl)].
    + destruct l as [|ev l]; cbn in Hl.
      * injection Hl as -> _. destruct Hbad as [Hbad _]. lia.
      * injection Hl as <- _. by destruct (Hno _ _ _ Ht0 Hbad).
    + destruct l as [|ev l]; cbn in Hl.
      * injection Hl as <- _. destruct Hbad as [Hbad _]. lia.
      * injection Hl as <- _. right. eauto 10.
Qed.

Lemma failed_fetch_surfaces_witness :
  surfaces Synthetic.serverError Listing
    (works Synthetic.serverError Synthetic.client 1 SearchParameters.defaults) ∧
  works Synthetic.serverError Synthetic.client 1 SearchParameters.defaults
  = (Thrown (JsError "Error 500: Internal Server Error"),
     [Request "https://api.openalex.org/works?per-page=25&cursor=*"]) ∧
  trace (works Synthetic.firstPageOnly Synthetic.client 3
           (Synthetic.request None None true None None None false (Some 3)))
  = [Request "https://api.openalex.org/works?per-page=200&cursor=*";
     Request "https://api.openalex.org/works?per-page=200&cursor=c2";
     Detached [] (Thrown (TransportError 500 "Internal Server Error"))] ∧
  ∃ w, outcome (works Synthetic.firstPageOnly Synthetic.client 3
                  (Synthetic.request None None true None None None false
                                     (Some 3)))
       = Returned w.
Proof.
  pose proof (failed_fetch_surfaces Synthetic.serverError Synthetic.client)
    as (_ & _ & _ & _ & Hworks & _).
  pose proof (failed_fetch_surfaces Synthetic.firstPageOnly Synthetic.client)
    as (_ & _ & _ & _ & _ & Hchunked).
  split; [apply Hworks; reflexivity|].
  split; [reflexivity|]. split; [vm_compute; reflexivity|].
  specialize (Hchunked 3%nat
                (Synthetic.request None None true None None None false
                                   (Some 3)) eq_refl).
  cbv zeta in Hchunked. destruct Hchunked as [_ Hresolves].
  apply Hresolves; [reflexivity|reflexivity| |vm_compute; reflexivity].
  exists "*". vm_compute. reflexivity.
Defined.

(** C2 as stated fails: [work], answered with status 500, logs the error
    and returns the placeholder. *)
Lemma work_swallows_server_error :
  failed (GET_response Synthetic.serverError Entity
            (entityUrl Synthetic.client "works" "W1" None)) ∧
  work Synthetic.serverError Synthetic.client "W1" None
  = (Returned (emptyWork "W1"),
     [Request "https://api.openalex.org/works/W1";
      ConsoleLog "Error 500: Internal Server Error"]).
Proof. split; [split; cbn; lia|reflexivity]. Qed.

(** C9.  [topic] called with an empty id throws ['Topic id is required']
    and issues no request.  [work], [author], [source] and [institution]
    have no such check: with an empty id they issue their request. *)
Theorem topic_requires_id E this id :
  id = "" →
  topic E this id = (Thrown (JsError "Topic id is required"), []) ∧
  ∀ externalIds,
    requests (trace (work E this id externalIds))
    = [entityUrl this "works" id externalIds] ∧
    trace (author E this id externalIds)
    = [Request (entityUrl this "authors" id externalIds)] ∧
    trace (source E this id externalIds)
    = [Request (entityUrl this "sources" id externalIds)] ∧
    trace (institution E this id externalIds)
    = [Request (entityUrl this "institutions" id externalIds)].
Proof.
  intros Hid. split; [by apply topic_checks_id|].
  intros ext. split; [apply work_fetches|].
  repeat split; apply thrower_fetches.
Qed.

Lemma topic_requires_id_witness :
  topic Synthetic.notFound Synthetic.client ""
  = (Thrown (JsError "Topic id is required"), []) ∧
  trace (author Synthetic.notFound Synthetic.client "" None)
  = [Request "https://api.openalex.org/authors/"].
Proof.
  destruct (topic_requires_id Synthetic.notFound Synthetic.client "" eq_refl)
    as [Ht Ho].
  split; [exact Ht|]. exact (proj1 (proj2 (Ho None))).
Defined.

(** ** Validation comes first *)

Section Validation.
Context (E : Env) (this : OpenAlex).
Import SearchParameters.


Lemma validateParameters_accepts sp f c tc tj :
  (retriveAllPages sp = false ∧ windowed sp = true) ∨
  (truthyNum (startPage sp) = false ∧ truthyNum (endPage sp) = false) →
  validateParameters (retriveAllPages sp) (startPage sp) (endPage sp)
                     f c tc tj
  = (Returned tt, []).
Proof.
  unfold windowed, validateParameters.
  intros [[-> [Hs He]%andb_true_iff]|[Hs He]]; rewrite Hs, He;
    [reflexivity|by destruct (retriveAllPages sp)].
Qed.

End Validation.



(** ** The Cursor Resolver *)

Section Resolver.
Context (E : Env) (url : string) (perPage : option Z).

Abbreviation urlAt := (pageUrl E url perPage false).
Abbreviation landsAt := (lands E url perPage false).
Abbreviation step := (nextOf E url perPage false).
Abbreviation reached := (cursorAfter E url perPage false).

Lemma fetchPage_200 u :
  status (GET_response E Listing u) = 200 →
  fetchPage E u = (Returned (data (GET_response E Listing u)), [Request u]).
Proof.
  intros H. unfold fetchPage, GET. cbn in *. rewrite H. reflexivity.
Qed.

Lemma fetchPage_404 u :
  status (GET_response E Listing u) = 404 →
  fetchPage E u = (Returned emptyPage, [Request u]).
Proof.
  intros H. unfold fetchPage, GET. cbn in *. rewrite H. reflexivity.
Qed.

(** One step of the resolver's loop, where the fetch lands. *)
Lemma resolve_step cursor :
  landsAt cursor →
  ∃ p, fetchPage E (urlAt cursor) = (Returned p, [Request (urlAt cursor)])
       ∧ default cursor (Meta.next_cursor (meta p)) = step cursor.
Proof.
  unfold lands, nextOf, pageAt.
  intros [H|H].
  - eexists. split; [by apply fetchPage_200|].
    by rewrite bool_decide_eq_true_2.
  - eexists. split; [by apply fetchPage_404|].
    rewrite bool_decide_eq_false_2 by lia. reflexivity.
Qed.

Lemma resolveFrom_walk n cursor :
  (∀ k, (k < n)%nat → landsAt (Nat.iter k step cursor)) →
  resolveFrom E n url perPage cursor
  = (Returned (Nat.iter n step cursor),
     (λ k, Request (urlAt (Nat.iter k step cursor))) <$> seq 0 n).
Proof.
  revert cursor. induction n as [|n IH]; intros cursor Hl; [reflexivity|].
  destruct (resolve_step cursor) as (p & Hp & Hnext).
  { apply (Hl 0%nat). lia. }
  assert (∀ k, (k < n)%nat → landsAt (Nat.iter k step (step cursor))) as Hl'.
  { intros k Hk. rewrite <- Nat.iter_succ_r. apply Hl. lia. }
  specialize (IH _ Hl'). rewrite <- Hnext in IH at 1.
  cbn [resolveFrom]. rewrite (bind_returned _ _ _ _ _ _ Hp IH).
  rewrite Nat.iter_succ_r. f_equal. cbn [seq fmap list_fmap app]. f_equal.
  rewrite <- fmap_S_seq, <- list_fmap_compose. apply list_fmap_ext.
  intros i k _. unfold compose. by rewrite Nat.iter_succ_r.
Qed.

Lemma cursorAfter_iter k : reached k = Nat.iter k step "*".
Proof. induction k as [|k IH]; cbn; [done|by rewrite IH]. Qed.

End Resolver.

(** C4.  Asked for a page of at most 1 (or for no page), the Cursor
    Resolver returns the start sentinel ["*"] and issues no request.  Asked
    for page [N > 1], and no fetch on the way being a transport error, it
    issues exactly [N - 1] requests, one after the other along the chain of
    next cursors from the sentinel, and returns the cursor reached after
    [N - 1] pages, which is the one that yields page [N]. *)
Theorem cursor_resolution E url perPage :
  (∀ page, default 1 page ≤ 1 →
     getCursorByPage E url page perPage = (Returned "*", [])) ∧
  (∀ N, 1 < N →
     (∀ k, (k < Z.to_nat (N - 1))%nat →
           lands E url perPage false (cursorAfter E url perPage false k)) →
     getCursorByPage E url (Some N) perPage
     = (Returned (cursorAfter E url perPage false (Z.to_nat (N - 1))),
        (λ k, Request (pageUrl E url perPage false
                         (cursorAfter E url perPage false k)))
          <$> seq 0 (Z.to_nat (N - 1))) ∧
     Z.of_nat (length (trace (getCursorByPage E url (Some N) perPage)))
     = N - 1).
Proof.
  split.
  - intros page Hp. unfold getCursorByPage. by rewrite bool_decide_eq_true_2.
  - intros N HN Hl.
    assert (getCursorByPage E url (Some N) perPage
            = (Returned (cursorAfter E url perPage false (Z.to_nat (N - 1))),
               (λ k, Request (pageUrl E url perPage false
                                (cursorAfter E url perPage false k)))
                 <$> seq 0 (Z.to_nat (N - 1)))) as Heq.
    { unfold getCursorByPage. change (default 1 (Some N)) with N.
      rewrite bool_decide_eq_false_2 by lia.
      rewrite resolveFrom_walk
        by (intros k Hk; rewrite <- cursorAfter_iter; by apply Hl).
      rewrite <- cursorAfter_iter.
      erewrite list_fmap_ext; [reflexivity|].
      intros i k _. cbv beta. by rewrite cursorAfter_iter. }
    split; [exact Heq|]. rewrite Heq. cbn [trace snd].
    rewrite length_fmap, length_seq. lia.
Qed.

Lemma cursor_resolution_witness :
  getCursorByPage Synthetic.library "https://api.openalex.org/works"
                  (Some 3) (Some 2)
  = (Returned "c3",
     [Request "https://api.openalex.org/works?per-page=2&cursor=*";
      Request "https://api.openalex.org/works?per-page=2&cursor=c2"]) ∧
  getCursorByPage Synthetic.library "https://api.openalex.org/works"
                  (Some 0) (Some 2)
  = (Returned "*", []).
Proof.
  destruct (cursor_resolution Synthetic.library
              "https://api.openalex.org/works" (Some 2)) as [H1 HN].
  split.
  - destruct (HN 3) as [Heq _]; [lia| |].
    + intros [|[|k]] Hk; [left; vm_compute; reflexivity
                         |left; vm_compute; reflexivity|].
      exfalso. change (Z.to_nat (3 - 1)) with 2%nat in Hk. lia.
    + rewrite Heq. vm_compute. reflexivity.
  - apply H1. cbn. lia.
Defined.

(** ** Traversals over a collection *)

Lemma exportWorks_returns toJson toCsv d :
  outcome (exportWorks toJson toCsv d) = Returned tt.
Proof. unfold exportWorks. by destruct (truthyStr toJson), (truthyStr toCsv). Qed.

Section Traversal.
Context (E : Env) (url : string) (perPage : option Z) (drainAll : bool).

Abbreviation pageUrl := (pageUrl E url perPage drainAll).
Abbreviation pageAt := (pageAt E url perPage drainAll).
Abbreviation Collection := (Collection E url perPage drainAll).
Abbreviation Remaining := (Remaining E url perPage drainAll).

Lemma Collection_inv cursor pages :
  Collection cursor pages →
  status (pageAt cursor) = 200 ∧
  ∃ rest, pages = (cursor, data (pageAt cursor)) :: rest ∧
          Remaining (Meta.next_cursor (meta (data (pageAt cursor)))) rest.
Proof.
  intros H. destruct H as [c H200 Hn|c c' ps H200 Hn Hps];
    (split; [done|]); eexists; (split; [done|]); by rewrite Hn.
Qed.

Lemma Collection_length cursor pages :
  Collection cursor pages → (0 < length pages)%nat.
Proof. intros (_ & rest & -> & _)%Collection_inv. cbn. lia. Qed.

Context (law : CursorLaw E url perPage drainAll).

Lemma fetch_next c0 cursor :
  status (pageAt cursor) = 200 →
  fetchPage E (replaceCursor E (pageUrl c0) cursor)
  = (Returned (data (pageAt cursor)), [Request (pageUrl cursor)]).
Proof. intros H. rewrite law. by apply fetchPage_200. Qed.

Lemma advance_remaining n c0 A next rest acc :
  Remaining next rest →
  advance E n (pageUrl c0) A next acc
  = (Returned (acc ++ gathered E A (take n rest)),
     (λ cp, Request (pageUrl cp.1)) <$> take n rest).
Proof.
  revert next rest acc. induction n as [|n IH]; intros next rest acc Hrest.
  { cbn. rewrite app_nil_r. by destruct next. }
  destruct next as [c|]; cbn in Hrest.
  - apply Collection_inv in Hrest as (H200 & rest' & -> & Hrest').
    cbn [advance]. erewrite bind_returned;
      [|by apply fetch_next|by apply IH].
    unfold gathered. cbn. by rewrite <- app_assoc.
  - subst rest. cbn. by rewrite app_nil_r.
Qed.


End Traversal.

Section ResolverOnCollection.
Context (E : Env) (url : string) (perPage : option Z).

Abbreviation nextOf' := (nextOf E url perPage false).
Abbreviation Collection' := (Collection E url perPage false).

(** One step along the cursor chain of a collection: to the next page, or
    nowhere from the last page. *)
Lemma nextOf_collection cursor pages :
  Collection' cursor pages →
  lands E url perPage false cursor ∧
  Collection' (nextOf' cursor) (drop (1 `min` (length pages - 1)) pages).
Proof.
  intros H. unfold nextOf, lands.
  destruct H as [c H200 Hn|c c' ps H200 Hn Hps];
    rewrite bool_decide_eq_true_2, Hn by done; cbn.
  - split; [by left|]. by apply Collection_last.
  - split; [by left|]. apply Collection_length in Hps as Hl.
    destruct ps as [|p ps]; [cbn in Hl; lia|done].
Qed.

Lemma iter_collection n cursor pages :
  Collection' cursor pages →
  Collection' (Nat.iter n nextOf' cursor)
              (drop (n `min` (length pages - 1)) pages).
Proof.
  revert cursor pages. induction n as [|n IH]; intros cursor pages H; [done|].
  rewrite Nat.iter_succ_r.
  destruct (nextOf_collection _ _ H) as [_ H'].
  apply IH in H'. rewrite drop_drop, length_drop in H'.
  apply Collection_length in H.
  by replace (S n `min` (length pages - 1))%nat
    with (1 `min` (length pages - 1)
          + n `min` (length pages - 1 `min` (length pages - 1) - 1))%nat
    by lia.
Qed.

(** The Cursor Resolver on a collection: the cursor of the target page,
    of the last page where the target lies past the end. *)
Lemma getCursorByPage_collection page pages :
  Collection' "*" pages →
  ∃ c evs, getCursorByPage E url page perPage = (Returned c, evs) ∧
           Collection' c (drop (Z.to_nat (default 1 page - 1)
                                  `min` (length pages - 1)) pages).
Proof.
  intros H. unfold getCursorByPage. case_bool_decide as Hp.
  - eexists _, _. split; [done|].
    by replace (Z.to_nat (default 1 page - 1)) with 0%nat by lia.
  - eexists _, _. split; [|by apply iter_collection].
    apply resolveFrom_walk. intros k _.
    by destruct (nextOf_collection _ _ (iter_collection k _ _ H)).
Qed.

End ResolverOnCollection.

(** ** The bounded window *)

Lemma truthyNum_Some n : n ≠ 0 → truthyNum (Some n) = true.
Proof. intros H. cbn. by rewrite bool_decide_eq_true_2. Qed.

Lemma exportWorks_run toJson toCsv d :
  exportWorks toJson toCsv d = (Returned tt, trace (exportWorks toJson toCsv d)).
Proof. unfold exportWorks. by destruct (truthyStr toJson), (truthyStr toCsv). Qed.

Lemma requests_app es1 es2 : requests (es1 ++ es2) = requests es1 ++ requests es2.
Proof. apply omap_app. Qed.

Lemma requests_Request {A} (f : A → string) (l : list A) :
  requests ((λ x, Request (f x)) <$> l) = f <$> l.
Proof. induction l as [|x l IH]; cbn; [done|]. by f_equal. Qed.

(** C5, as amended.  A request with [startPage = s] and [endPage = e], both
    set, over a collection: the call returns the results of a run of
    consecutive pages, concatenated in the order in which the pages are
    fetched.  The run begins at page [s], at page 1 where [s < 1] and at
    the last page where [s] lies past the end, and holds [e - s] further
    pages, none where [e < s], fewer where the collection ends first.  For
    [1 ≤ s ≤ e] with a page [s] in the collection these are the pages [s]
    through [e], or through the last page.  In every case [meta.page] is
    [s], and [meta.count] and [meta.per_page] are those of the first page
    fetched for the window. *)
Theorem bounded_window E this fuel sp s e pages :
  let u := buildUrl E (url this) "works" (SearchParameters.search sp)
             (SearchParameters.searchField sp) (SearchParameters.filter sp)
             (SearchParameters.groupBy sp) (SearchParameters.sortBy sp) in
  let perPage := SearchParameters.perPage sp in
  let from := (Z.to_nat (s - 1) `min` (length pages - 1))%nat in
  let window := take (S (Z.to_nat (e - s))) (drop from pages) in
  SearchParameters.retriveAllPages sp = false →
  SearchParameters.startPage sp = Some s → s ≠ 0 →
  SearchParameters.endPage sp = Some e → e ≠ 0 →
  CursorLaw E u perPage false →
  Collection E u perPage false "*" pages →
  ∃ w first,
    outcome (works E this fuel sp) = Returned w ∧
    results w = gathered E (SearchParameters.AbstractArrayToString sp) window ∧
    requests (trace (works E this fuel sp))
    = requests (trace (getCursorByPage E u (SearchParameters.page sp) perPage))
      ++ requests (trace (getCursorByPage E u (Some s) perPage))
      ++ ((λ cp, pageUrl E u perPage false cp.1) <$> window) ∧
    pages !! from = Some first ∧
    Meta.page (meta w) = Some s ∧
    Meta.count (meta w) = Meta.count (meta first.2) ∧
    Meta.per_page (meta w) = Meta.per_page (meta first.2) ∧
    (1 ≤ s ≤ e → s ≤ Z.of_nat (length pages) →
     window = take (Z.to_nat (e - s + 1)) (drop (Z.to_nat (s - 1)) pages)).
Proof.
  intros u perPage from window Hdrain Hs Hsnz He Henz law Hcoll.
  assert (windowed sp = true) as Hwin.
  { unfold windowed. rewrite Hs, He, !truthyNum_Some by done. done. }
  destruct (getCursorByPage_collection E u perPage
              (SearchParameters.page sp) pages Hcoll) as (c0 & evs0 & H0 & _).
  destruct (getCursorByPage_collection E u perPage (Some s) pages Hcoll)
    as (c & evs & Hc & Hcs).
  change (default 1 (Some s)) with s in Hcs. fold from in Hcs.
  apply Collection_inv in Hcs as (H200 & rest & Hdrop & Hrest).
  assert (window = (c, data (pageAt E u perPage false c))
                   :: take (Z.to_nat (e - s)) rest) as Hwindow.
  { subst window. by rewrite Hdrop. }
  assert (∃ w t, works E this fuel sp = (Returned w, t) ∧
            results w = gathered E (SearchParameters.AbstractArrayToString sp)
                          window ∧
            meta w = Meta.setPage s (meta (data (pageAt E u perPage false c))) ∧
            requests t = requests evs0 ++ requests evs
                         ++ ((λ cp, pageUrl E u perPage false cp.1) <$> window))
    as (w & t & Hrun & Hres & Hmeta & Hreq).
  { eexists _, _. split.
    { unfold works. cbv zeta. fold u. fold perPage.
      eapply bind_returned;
        [apply validateParameters_accepts; left; by split|].
      rewrite Hdrain, Hwin, Hs, He. cbv beta iota.
      eapply bind_returned; [exact H0|]. cbv beta.
      eapply bind_returned;
        [eapply bind_returned; [exact Hc|reflexivity]|]. cbv beta iota.
      eapply bind_returned; [reflexivity|].
      change (GET_response E Listing (appendCursorToUrl E u perPage c false))
        with (pageAt E u perPage false c).
      change (appendCursorToUrl E u perPage c false)
        with (pageUrl E u perPage false c).
      rewrite bool_decide_eq_true_2 by done.
      unfold handleMultiplePages. cbn [data meta results].
      eapply bind_returned.
      { replace (Meta.next_cursor _)
          with (Meta.next_cursor (meta (data (pageAt E u perPage false c))))
          by (by destruct (SearchParameters.AbstractArrayToString sp)).
        apply (advance_remaining E u perPage false law). exact Hrest. }
      eapply bind_returned; [apply exportWorks_run|reflexivity]. }
    cbn [results meta]. split; [|split].
    - rewrite Hwindow. unfold gathered at 2. cbn. f_equal.
      by destruct (SearchParameters.AbstractArrayToString sp).
    - by destruct (SearchParameters.AbstractArrayToString sp).
    - rewrite Hwindow. rewrite !requests_app, requests_Request.
      rewrite requests_exportWorks.
      change (requests []) with (@nil string).
      rewrite !app_nil_r. reflexivity. }
  exists w, (c, data (pageAt E u perPage false c)).
  rewrite Hrun, H0, Hc, Hmeta. cbn [outcome trace fst snd].
  split; [done|]. split; [done|]. split; [done|]. split.
  { rewrite <- (Nat.add_0_r from), <- lookup_drop, Hdrop. reflexivity. }
  split; [done|]. split; [done|]. split; [done|].
  intros Hse Hlen. subst window from.
  replace (Z.to_nat (s - 1) `min` (length pages - 1))%nat
    with (Z.to_nat (s - 1)) by lia.
  by replace (Z.to_nat (e - s + 1)) with (S (Z.to_nat (e - s))) by lia.
Qed.

(** The synthetic library satisfies what the theorems assume. *)
Lemma library_law drainAll :
  CursorLaw Synthetic.library Synthetic.worksBase (Some 2) drainAll ∧
  CursorLaw Synthetic.library Synthetic.worksBase (Some 200) drainAll.
Proof. split; intros c c'; vm_compute; reflexivity. Qed.

Lemma library_shelf_2 :
  Collection Synthetic.library Synthetic.worksBase (Some 2) false "*"
             (Synthetic.shelf (Some 2) false).
Proof.
  unfold Synthetic.shelf. cbn [fmap list_fmap].
  repeat (eapply Collection_next;
            [vm_compute; reflexivity|vm_compute; reflexivity|]).
  apply Collection_last; vm_compute; reflexivity.
Qed.
Lemma bounded_window_witness :
  ∃ w,
    outcome (works Synthetic.library Synthetic.client 0
               (Synthetic.request (Some 2) (Some 1) false None
                                  (Some 2) (Some 4) false None))
    = Returned w ∧
    results w = Synthetic.item <$> ["b1"; "b2"; "c1"; "c2"; "d1"; "d2"] ∧
    Meta.page (meta w) = Some 2.
Proof.
  pose proof (bounded_window Synthetic.library Synthetic.client 0
                (Synthetic.request (Some 2) (Some 1) false None
                                   (Some 2) (Some 4) false None)
                2 4 (Synthetic.shelf (Some 2) false)) as H.
  cbv zeta in H.
  specialize (H eq_refl eq_refl ltac:(lia) eq_refl ltac:(lia)).
  specialize (H (proj1 (library_law false))).
  specialize (H library_shelf_2).
  destruct H as (w & first & Ho & Hr & _ & _ & Hp & _).
  exists w. split; [exact Ho|]. split; [|exact Hp].
  rewrite Hr. vm_compute. reflexivity.
Defined.

(** C5 as stated fails for windows that do not lie in the collection.
    Over the five pages of the library, the window 7..9, past the end,
    returns the results of page 5 as page 7; the window 4..2 returns page
    4; the window -2..2 returns all five pages; and with [startPage = 0]
    the test [startPage && endPage] fails: the request for 0..3 is a
    single-page request and returns page 1. *)
Lemma window_outside_the_collection :
  let run s e :=
    mapOutcome (λ w, (results w, Meta.page (meta w)))
      (outcome (works Synthetic.library Synthetic.client 0
                  (Synthetic.request (Some 2) (Some 1) false None
                                     (Some s) (Some e) false None))) in
  length (Synthetic.shelf (Some 2) false) = 5%nat ∧
  run 7 9 = Returned ([Synthetic.item "e1"], Some 7) ∧
  run 4 2 = Returned (Synthetic.item <$> ["d1"; "d2"], Some 4) ∧
  run (-2) 2
  = Returned (Synthetic.item
                <$> ["a1"; "a2"; "b1"; "b2"; "c1"; "c2"; "d1"; "d2"; "e1"],
              Some (-2)) ∧
  run 0 3 = Returned (Synthetic.item <$> ["a1"; "a2"], Some 1).
Proof. repeat split; vm_compute; reflexivity. Qed.

(** ** Drain to completion *)





(** ** The chunked drain *)








Section ChunkedTraversal.
Context (E : Env) (url : string) (perPage : option Z) (drainAll : bool).
Context (law : CursorLaw E url perPage drainAll).

Abbreviation pageUrl'' := (pageUrl E url perPage drainAll).


End ChunkedTraversal.

Lemma when_emit (b : bool) ev :
  (if b then emit ev else ret tt) = (Returned tt, if b then [ev] else []).
Proof. by destruct b. Qed.







(** ** The abstract post-processing *)

Lemma abstractToString_fields E (work : Obj) :
  abstractToString E work !! "abstract_inverted_index" = None ∧
  (∀ index, work !! "abstract_inverted_index" = Some index →
            truthy (Some index) = true →
            abstractToString E work !! "abstract"
            = Some (JStr (convertAbstractArrayToString E index))) ∧
  (truthy (work !! "abstract_inverted_index") = false →
   abstractToString E work !! "abstract" = work !! "abstract") ∧
  (∀ k, k ≠ "abstract" → k ≠ "abstract_inverted_index" →
        abstractToString E work !! k = work !! k).
Proof.
  unfold abstractToString. split; [apply lookup_delete_eq|].
  split; [|split].
  - intros index Hi Ht. rewrite Hi, Ht.
    rewrite lookup_delete_ne by done. apply lookup_insert_eq.
  - intros Hf. rewrite lookup_delete_ne by done.
    destruct (work !! "abstract_inverted_index") as [index|]; [|done].
    by rewrite Hf.
  - intros k Hk Hk'. rewrite lookup_delete_ne by done.
    destruct (work !! "abstract_inverted_index") as [index|]; [|done].
    destruct (truthy (Some index)); [|done].
    by rewrite lookup_insert_ne.
Qed.


Section Lockstep.
Context (E : Env).

Abbreviation f := (abstractToString E).

(** The drivers that [works] waits for run in lockstep with and without
    the post-processing. *)
Lemma advance_lockstep n url cursor acc :
  outcome (advance E n url true cursor (f <$> acc))
  = mapOutcome (fmap f) (outcome (advance E n url false cursor acc)).
Proof.
  revert cursor acc. induction n as [|n IH]; intros [c|] acc; cbn [advance];
    try reflexivity.
  rewrite !outcome_bind. destruct (outcome (fetchPage E _)) as [p| |];
    [|reflexivity..].
  cbn [postprocess]. rewrite <- fmap_app. apply IH.
Qed.

Lemma drain_lockstep fuel url cursor acc :
  outcome (drain E fuel url true cursor (f <$> acc))
  = mapOutcome (fmap f) (outcome (drain E fuel url false cursor acc)).
Proof.
  revert cursor acc. induction fuel as [|n IH]; intros [c|] acc; cbn [drain];
    try reflexivity.
  rewrite !outcome_bind. destruct (outcome (fetchPage E _)) as [p| |];
    [|reflexivity..].
  cbn [postprocess]. rewrite <- fmap_app. apply IH.
Qed.


Lemma handleMultiplePages_lockstep s e url st tx d toJson toCsv :
  outcome (handleMultiplePages E s e url (mkResponse st tx (mapResults f d))
                               toJson toCsv true)
  = mapOutcome (mapResults f)
      (outcome (handleMultiplePages E s e url (mkResponse st tx d)
                                    toJson toCsv false)).
Proof.
  unfold handleMultiplePages. cbn [data mapResults results meta].
  rewrite !outcome_bind, advance_lockstep.
  destruct (outcome (advance E _ url false _ _)) as [all| |]; [|reflexivity..].
  cbn [mapOutcome fmap]. by rewrite !outcome_bind, !exportWorks_returns.
Qed.

Lemma handleAllPages_lockstep fuel url st tx d toJson toCsv :
  outcome (handleAllPages E fuel url (mkResponse st tx (mapResults f d))
                          toJson toCsv true)
  = mapOutcome (mapResults f)
      (outcome (handleAllPages E fuel url (mkResponse st tx d)
                               toJson toCsv false)).
Proof.
  unfold handleAllPages. cbn [data mapResults results meta].
  rewrite !outcome_bind, drain_lockstep.
  destruct (outcome (drain E _ url false _ _)) as [all| |]; [|reflexivity..].
  cbn [mapOutcome fmap]. by rewrite !outcome_bind, !exportWorks_returns.
Qed.

Lemma outcome_detach callee : outcome (detach callee) = Returned tt.
Proof. reflexivity. Qed.

Lemma works_lockstep this fuel a1 a2 a3 a4 a5 a6 a7 a8 a9 a10 a11 a12 a14 :
  outcome (works E this fuel
             (SearchParameters.mk a1 a2 a3 a4 a5 a6 a7 a8 a9 a10 a11 a12
                                  true a14))
  = mapOutcome (mapResults f)
      (outcome (works E this fuel
                  (SearchParameters.mk a1 a2 a3 a4 a5 a6 a7 a8 a9 a10 a11 a12
                                       false a14))).
Proof.
  unfold works, windowed. cbv zeta.
  cbn [SearchParameters.search SearchParameters.searchField
       SearchParameters.perPage SearchParameters.page
       SearchParameters.retriveAllPages SearchParameters.toJson
       SearchParameters.toCsv SearchParameters.startPage
       SearchParameters.endPage SearchParameters.filter
       SearchParameters.groupBy SearchParameters.sortBy
       SearchParameters.AbstractArrayToString SearchParameters.chunkSize].
  rewrite !(outcome_bind (validateParameters _ _ _ _ _ _ _)).
  destruct (outcome (validateParameters _ _ _ _ _ _ _)); [|reflexivity..].
  rewrite !(outcome_bind (getCursorByPage _ _ _ _)).
  destruct (outcome (getCursorByPage _ _ _ _)) as [cursor| |];
    [|reflexivity..].
  set (resolution := if truthyNum a8 && truthyNum a9 then _ else _).
  rewrite !(outcome_bind resolution).
  destruct (outcome resolution) as [[page c]| |]; [|reflexivity..].
  rewrite !(outcome_bind (GET E Listing _)). cbn [GET outcome fst].
  case_bool_decide; [|reflexivity].
  set (r := GET_response E Listing _) in *.
  set (d := mkWorks (results (data r)) _).
  change (mkWorks (f <$> results d) (meta d)) with (mapResults f d).
  cbn [status statusText].
  destruct (truthyNum a8 && truthyNum a9);
    [apply handleMultiplePages_lockstep|].
  destruct a5.
  - destruct (truthyNum a14); [|apply handleAllPages_lockstep].
    rewrite !outcome_bind, !outcome_detach.
    rewrite ?outcome_bind, ?when_emit. reflexivity.
  - rewrite ?outcome_bind, ?when_emit. reflexivity.
Qed.

End Lockstep.

(** C10.  Setting [AbstractArrayToString] changes what [works] returns in
    this way only: every result has lost its [abstract_inverted_index];
    a result that had a (truthy) inverted index has as [abstract] the
    string converted from it, any other result keeps the [abstract] it
    had; the results are as many and in the same order as without the
    option, all their other fields are the same, and so is [meta]. *)
Theorem abstract_post_processing E this fuel sp w0 :
  SearchParameters.AbstractArrayToString sp = true →
  outcome (works E this fuel (withAbstractArrayToString false sp))
  = Returned w0 →
  ∃ w,
    outcome (works E this fuel sp) = Returned w ∧
    meta w = meta w0 ∧
    length (results w) = length (results w0) ∧
    ∀ i r0, results w0 !! i = Some r0 →
      ∃ r, results w !! i = Some r ∧
           r !! "abstract_inverted_index" = None ∧
           (∀ index, r0 !! "abstract_inverted_index" = Some index →
                     truthy (Some index) = true →
                     r !! "abstract"
                     = Some (JStr (convertAbstractArrayToString E index))) ∧
           (truthy (r0 !! "abstract_inverted_index") = false →
            r !! "abstract" = r0 !! "abstract") ∧
           (∀ k, k ≠ "abstract" → k ≠ "abstract_inverted_index" →
                 r !! k = r0 !! k).
Proof.
  intros HA Hoff. destruct sp. cbn in HA, Hoff. subst.
  exists (mapResults (abstractToString E) w0).
  split; [by rewrite works_lockstep, Hoff|].
  split; [done|]. split; [apply length_fmap|].
  intros i r0 Hi. exists (abstractToString E r0).
  split; [by cbn; rewrite list_lookup_fmap, Hi|].
  apply abstractToString_fields.
Qed.

Lemma abstract_post_processing_witness :
  ∃ w,
    outcome (works Synthetic.abstracts Synthetic.client 0
               (Synthetic.request (Some 25) (Some 1) false None None None
                                  true None))
    = Returned w ∧
    results w
    = [ {[ "id" := JStr "w1"; "abstract" := JStr "Hello" ]};
        Synthetic.item "w2"; Synthetic.item "w3" ].
Proof.
  pose proof (abstract_post_processing Synthetic.abstracts Synthetic.client 0
                (Synthetic.request (Some 25) (Some 1) false None None None
                                   true None)
                (mkWorks
                   [ Synthetic.indexed "w1"; Synthetic.item "w2";
                     <["abstract_inverted_index" := JNull]> (Synthetic.item "w3") ]
                   (Meta.mk 3 (Some 1) 25 None
                            (Some (Synthetic.worksUrl "25" "*"))))
                eq_refl) as H.
  assert (outcome (works Synthetic.abstracts Synthetic.client 0
                     (withAbstractArrayToString false
                        (Synthetic.request (Some 25) (Some 1) false None None
                                           None true None)))
          = Returned (mkWorks
                   [ Synthetic.indexed "w1"; Synthetic.item "w2";
                     <["abstract_inverted_index" := JNull]> (Synthetic.item "w3") ]
                   (Meta.mk 3 (Some 1) 25 None
                            (Some (Synthetic.worksUrl "25" "*"))))) as Hoff.
  { vm_compute. reflexivity. }
  destruct (H Hoff) as (w & Ho & _).
  exists w. split; [exact Ho|].
  vm_compute in Ho. injection Ho as <-. vm_compute. reflexivity.
Defined.

(** * Further properties of the class *)

(** ** The lookups *)

Lemma checked_fetch E k u :
  ChecksFor200 E k u
    (let! response := GET E k u in
     if bool_decide (status response = 200) then ret (data response)
     else throw (JsError (errorMessage response))).
Proof.
  unfold ChecksFor200, GET. cbn [bind]. split; [by case_bool_decide|].
  split; intros H.
  - by rewrite bool_decide_eq_true_2.
  - by rewrite bool_decide_eq_false_2.
Qed.

(** X1.  [author], [source], [institution], [topic] (with an id), [ngram]
    and [autoCompleteWorks] issue exactly one request and do nothing else;
    they return the payload if the status is exactly 200 and throw
    [Error <status>: <status text>] on every other status, the other 2xx
    codes included. *)
Theorem lookups_check_for_200 E this id externalIds :
  ChecksFor200 E Entity (entityUrl this "authors" id externalIds)
               (author E this id externalIds) ∧
  ChecksFor200 E Entity (entityUrl this "sources" id externalIds)
               (source E this id externalIds) ∧
  ChecksFor200 E Entity (entityUrl this "institutions" id externalIds)
               (institution E this id externalIds) ∧
  (id ≠ "" →
   ChecksFor200 E Entity (url this +:+ "/topics/" +:+ id) (topic E this id)) ∧
  ChecksFor200 E Entity (url this +:+ "/works/" +:+ id +:+ "/ngram")
               (ngram E this id) ∧
  ChecksFor200 E Listing (url this +:+ "/autocomplete/works?q=" +:+ id)
               (autoCompleteWorks E this id).
Proof.
  split; [apply checked_fetch|]. split; [apply checked_fetch|].
  split; [apply checked_fetch|]. split; [|split; apply checked_fetch].
  intros Hid. unfold topic. rewrite bool_decide_eq_false_2 by done.
  apply checked_fetch.
Qed.

Lemma lookups_check_for_200_witness :
  author Synthetic.noContent Synthetic.client "A1" None
  = (Thrown (JsError "Error 204: No Content"),
     [Request "https://api.openalex.org/authors/A1"]) ∧
  outcome (topic Synthetic.noContent Synthetic.client "T1")
  = Thrown (JsError "Error 204: No Content").
Proof.
  pose proof (lookups_check_for_200 Synthetic.noContent Synthetic.client
                "A1" None) as (Ha & _).
  pose proof (lookups_check_for_200 Synthetic.noContent Synthetic.client
                "T1" None) as (_ & _ & _ & Ht & _).
  destruct Ha as (Htr & _ & Hthrow).
  destruct (Ht ltac:(discriminate)) as (_ & _ & Htthrow).
  split.
  - apply injective_projections; [|exact Htr].
    apply Hthrow. vm_compute. discriminate.
  - apply Htthrow. vm_compute. discriminate.
Defined.

(** X2.  What [work] returns on a failed lookup tells nothing about the
    failure: for every status other than 200, whatever the status, the
    status text, the payload and the external id namespace, the outcome
    is the same placeholder. *)
Theorem work_failures_look_alike E E' this this' id externalIds externalIds' :
  status (GET_response E Entity (entityUrl this "works" id externalIds)) ≠ 200 →
  status (GET_response E' Entity (entityUrl this' "works" id externalIds'))
    ≠ 200 →
  outcome (work E this id externalIds) = Returned (emptyWork id) ∧
  outcome (work E' this' id externalIds') = outcome (work E this id externalIds).
Proof.
  intros H H'.
  assert (∀ E0 this0 ext0,
            status (GET_response E0 Entity (entityUrl this0 "works" id ext0))
              ≠ 200 →
            outcome (work E0 this0 id ext0) = Returned (emptyWork id)) as Hrun.
  { intros E0 this0 ext0 H0. unfold work. rewrite outcome_bind.
    cbn [GET outcome fst]. rewrite bool_decide_eq_false_2 by done.
    rewrite outcome_bind. by case_bool_decide. }
  split; [by apply Hrun|]. by rewrite !Hrun.
Qed.

Lemma work_failures_look_alike_witness :
  outcome (work Synthetic.serverError Synthetic.client "W1" (Some "doi"))
  = outcome (work Synthetic.notFound Synthetic.client "W1" None).
Proof.
  refine (proj2 (work_failures_look_alike Synthetic.notFound
                   Synthetic.serverError Synthetic.client Synthetic.client
                   "W1" None (Some "doi") _ _)).
  - vm_compute. discriminate.
  - vm_compute. discriminate.
Defined.

Lemma entityUrl_prefixed this collection id ext :
  ext ≠ "" →
  entityUrl this collection id (Some ext)
  = entityUrl this collection (ext +:+ ":" +:+ id) None.
Proof.
  intros H. unfold entityUrl. cbn [truthyStr].
  by rewrite bool_decide_eq_true_2.
Qed.

(** X3.  A lookup by external id is the lookup of the id prefixed with the
    namespace and a colon: [author], [source] and [institution] behave in
    every respect as when called with [`${externalIds}:${id}`] alone, and
    [work] issues the same request.  An empty namespace is ignored by
    all four. *)
Theorem external_id_is_a_prefix E this id ext :
  ext ≠ "" →
  author E this id (Some ext) = author E this (ext +:+ ":" +:+ id) None ∧
  source E this id (Some ext) = source E this (ext +:+ ":" +:+ id) None ∧
  institution E this id (Some ext)
  = institution E this (ext +:+ ":" +:+ id) None ∧
  requests (trace (work E this id (Some ext)))
  = requests (trace (work E this (ext +:+ ":" +:+ id) None)) ∧
  work E this id (Some "") = work E this id None ∧
  author E this id (Some "") = author E this id None ∧
  source E this id (Some "") = source E this id None ∧
  institution E this id (Some "") = institution E this id None.
Proof.
  intros H. unfold author, source, institution.
  rewrite !entityUrl_prefixed by done.
  repeat (split; [reflexivity|]).
  split; [|done]. rewrite !work_fetches. by rewrite entityUrl_prefixed.
Qed.

Lemma external_id_is_a_prefix_witness :
  author Synthetic.notFound Synthetic.client "0000-0002" (Some "orcid")
  = author Synthetic.notFound Synthetic.client "orcid:0000-0002" None ∧
  institution Synthetic.notFound Synthetic.client "I1" (Some "")
  = institution Synthetic.notFound Synthetic.client "I1" None.
Proof.
  split.
  - refine (proj1 (external_id_is_a_prefix Synthetic.notFound Synthetic.client
                     "0000-0002" "orcid" _)).
    discriminate.
  - refine (proj2 (proj2 (proj2 (proj2 (proj2 (proj2 (proj2
              (external_id_is_a_prefix Synthetic.notFound Synthetic.client
                 "I1" "ror" _)))))))).
    discriminate.
Defined.

(** X4.  Ids are put into the URL as they are.  [work] called with
    [`${id}/ngram`] issues the request of [ngram(id)], and answers it like
    [ngram] when the status is 200. *)
Theorem ngram_is_a_work_lookup E this id :
  requests (trace (work E this (id +:+ "/ngram") None))
  = requests (trace (ngram E this id)) ∧
  (status (GET_response E Entity (url this +:+ "/works/" +:+ id +:+ "/ngram"))
   = 200 →
   work E this (id +:+ "/ngram") None = ngram E this id).
Proof.
  assert (entityUrl this "works" (id +:+ "/ngram") None
          = url this +:+ "/works/" +:+ id +:+ "/ngram") as Hu by reflexivity.
  split.
  - rewrite work_fetches, Hu. unfold ngram, GET. cbn [bind trace snd].
    by case_bool_decide.
  - intros H. unfold work, ngram. rewrite Hu. unfold GET. cbn [bind].
    by rewrite !bool_decide_eq_true_2.
Qed.

Lemma ngram_is_a_work_lookup_witness :
  requests (trace (work Synthetic.notFound Synthetic.client "W1/ngram" None))
  = requests (trace (ngram Synthetic.notFound Synthetic.client "W1")).
Proof.
  exact (proj1 (ngram_is_a_work_lookup Synthetic.notFound Synthetic.client
                  "W1")).
Defined.

(** X5.  Of the configuration of the client only the base URL is read:
    two clients with the same [url] behave alike in every method, whatever
    their [email], [apiKey], [maxRetries], [retryDelay] and
    [retryHttpCodes], and whatever the imported helpers do. *)
Theorem only_the_url_is_read I E this this' :
  url this = url this' →
  (∀ id ext,
     work E this id ext = work E this' id ext ∧
     author E this id ext = author E this' id ext ∧
     source E this id ext = source E this' id ext ∧
     institution E this id ext = institution E this' id ext ∧
     topic E this id = topic E this' id ∧
     ngram E this id = ngram E this' id ∧
     autoCompleteWorks E this id = autoCompleteWorks E this' id) ∧
  (∀ sp, worksOver I E this sp = worksOver I E this' sp) ∧
  (∀ c v g hm ha sp,
     listingOver E this c v g hm ha sp = listingOver E this' c v g hm ha sp).
Proof.
  intros H. split; [|split].
  - intros id ext.
    unfold work, author, source, institution, topic, ngram,
      autoCompleteWorks, entityUrl.
    rewrite H. done.
  - intros sp. unfold worksOver. by rewrite H.
  - intros c v g hm ha sp. unfold listingOver. by rewrite H.
Qed.

Lemma only_the_url_is_read_witness :
  work Synthetic.notFound
       (mkOpenAlex (Some "me@example.org") (Some "key")
                   "https://api.openalex.org" 0 0 [])
       "W1" None
  = work Synthetic.notFound Synthetic.client "W1" None.
Proof.
  pose proof (only_the_url_is_read (modelled Synthetic.notFound 0)
                Synthetic.notFound
                (mkOpenAlex (Some "me@example.org") (Some "key")
                            "https://api.openalex.org" 0 0 [])
                Synthetic.client eq_refl) as [H _].
  exact (proj1 (H "W1" None)).
Defined.

(** ** The conversion of one result *)

(** X6.  The conversion applied to a result is idempotent; a result without
    an [abstract_inverted_index] property is returned as it is; and the
    conversion adds no property but [abstract]. *)
Theorem abstractToString_settles E (work : Obj) :
  abstractToString E (abstractToString E work) = abstractToString E work ∧
  (work !! "abstract_inverted_index" = None → abstractToString E work = work) ∧
  dom (abstractToString E work) ⊆ dom work ∪ {[ "abstract" ]}.
Proof.
  assert (∀ w : Obj, w !! "abstract_inverted_index" = None →
                     abstractToString E w = w) as Hid.
  { intros w Hw. unfold abstractToString. rewrite Hw.
    by apply delete_id. }
  split; [|split].
  - apply Hid. unfold abstractToString. apply lookup_delete_eq.
  - apply Hid.
  - apply elem_of_subseteq. intros k [v Hv]%elem_of_dom.
    destruct (abstractToString_fields E work) as (Hgone & _ & _ & Hsame).
    destruct (decide (k = "abstract")) as [->|Hk];
      [by apply elem_of_union_r, elem_of_singleton|].
    apply elem_of_union_l, elem_of_dom.
    destruct (decide (k = "abstract_inverted_index")) as [->|Hk'];
      [by rewrite Hgone in Hv|].
    rewrite <- (Hsame k Hk Hk'). eauto.
Qed.

Lemma abstractToString_settles_witness :
  abstractToString Synthetic.abstracts (Synthetic.item "w2")
  = Synthetic.item "w2".
Proof.
  refine (proj1 (proj2 (abstractToString_settles Synthetic.abstracts
                          (Synthetic.item "w2"))) _).
  vm_compute. reflexivity.
Defined.

(** ** The list methods, whatever their helpers do *)

Lemma works_over E this fuel sp :
  works E this fuel sp = worksOver (modelled E fuel) E this sp.
Proof. reflexivity. Qed.

Lemma listing_over E this collection validate handleMultiple handleAll fuel sp :
  listing E this collection validate handleMultiple handleAll fuel sp
  = listingOver E this collection validate (getCursorByPage E)
                handleMultiple (handleAll fuel) sp.
Proof. reflexivity. Qed.


(** What the first lines of a list method come to, up to the page request. *)
Lemma prepared_run {B} validate getCursor u sp c0 c1 t
    (k : option Z * string → M B) :
  Prepared validate getCursor u sp c0 c1 t →
  (validate >>
   let! cursor := getCursor u (SearchParameters.page sp)
                            (SearchParameters.perPage sp) in
   let! pc :=
     if windowed sp
     then let! c := getCursor u (SearchParameters.startPage sp)
                      (if SearchParameters.retriveAllPages sp
                       then Some 200 else SearchParameters.perPage sp) in
          ret (SearchParameters.startPage sp, c)
     else ret (SearchParameters.page sp,
               if SearchParameters.retriveAllPages sp then "*" else cursor) in
   k pc)
  = (outcome (k (requestPage sp, requestCursor sp c0 c1)),
     t ++ trace (k (requestPage sp, requestCursor sp c0 c1))).
Proof.
  intros (tv & t0 & t1 & Hv & H0 & H1 & ->).
  unfold requestPage, requestCursor, requestPerPage in *.
  rewrite Hv, H0. cbn [bind]. destruct (windowed sp).
  - rewrite H1. cbn [bind ret]. 
    destruct (k _) as [o t']. cbn [outcome trace fst snd app].
    by rewrite app_nil_r, <- !app_assoc.
  - subst t1. cbn [bind ret].
    destruct (k _) as [o t']. cbn [outcome trace fst snd app].
    by rewrite !app_nil_r, <- !app_assoc.
Qed.




(** From the call to the page request, for a prepared method. *)
Ltac to_request H sp :=
  unfold worksOver, listingOver; cbv zeta;
  etransitivity; [exact (prepared_run _ _ _ _ _ _ _ _ H)|];
  cbv beta iota; unfold GET; cbn [bind outcome trace fst snd];
  fold (requestPerPage sp).

Section ListMethods.
Context (I : Imports) (E : Env) (this : OpenAlex) (sp : SearchParameters.t).
Context (collection : string)
        (validate : bool → option Z → option Z → option string → M unit)
        (getCursor : string → option Z → option Z → M string)
        (handleMultiple : Z → Z → string → AxiosResponse Works →
                          option string → option string → M Works)
        (handleAll : string → AxiosResponse Works →
                     option string → option string → M Works).

Import SearchParameters.

Abbreviation worksRun := (worksOver I E this sp).
Abbreviation listingRun :=
  (listingOver E this collection validate getCursor handleMultiple handleAll sp).
Abbreviation PreparedWorks :=
  (Prepared (worksValidation I sp) (imp_getCursorByPage I)
            (baseUrl E this "works" sp) sp).
Abbreviation PreparedListing :=
  (Prepared (listingValidation validate sp) getCursor
            (baseUrl E this collection sp) sp).

(** X7.  An error thrown by the validation or by either cursor resolution
    is the error of the call, and the call has done nothing but what these
    helpers did: no URL is fetched, no file written. *)
Theorem helper_errors_propagate e t :
  (worksValidation I sp = (Thrown e, t) → worksRun = (Thrown e, t)) ∧
  (listingValidation validate sp = (Thrown e, t) →
   listingRun = (Thrown e, t)) ∧
  (∀ tv, worksValidation I sp = (Returned tt, tv) →
         imp_getCursorByPage I (baseUrl E this "works" sp) (page sp)
                             (perPage sp) = (Thrown e, t) →
         worksRun = (Thrown e, tv ++ t)) ∧
  (∀ tv c0 t0,
     worksValidation I sp = (Returned tt, tv) →
     imp_getCursorByPage I (baseUrl E this "works" sp) (page sp) (perPage sp)
     = (Returned c0, t0) →
     windowed sp = true →
     imp_getCursorByPage I (baseUrl E this "works" sp) (startPage sp)
                         (requestPerPage sp) = (Thrown e, t) →
     worksRun = (Thrown e, tv ++ t0 ++ t)).
Proof.
  unfold worksValidation, listingValidation, worksOver, listingOver, baseUrl,
    requestPerPage.
  split; [|split; [|split]].
  - by intros ->.
  - by intros ->.
  - intros tv -> ->. reflexivity.
  - intros tv c0 t0 -> -> -> ->. cbn [bind]. by rewrite app_assoc.
Qed.

(** X8.  The page request of a list method is checked against status 200
    alone: on any other status, 404 and the other 2xx codes included, the
    call throws [Error <status>: <status text>] right after the request;
    no driver is called and nothing is exported. *)
Theorem page_request_checks_for_200 c0 c1 t :
  (PreparedWorks c0 c1 t →
   status (GET_response E Listing (requestUrl E this "works" sp c0 c1)) ≠ 200 →
   worksRun
   = (Thrown (JsError (errorMessage
                (GET_response E Listing (requestUrl E this "works" sp c0 c1)))),
      t ++ [Request (requestUrl E this "works" sp c0 c1)])) ∧
  (PreparedListing c0 c1 t →
   status (GET_response E Listing (requestUrl E this collection sp c0 c1))
     ≠ 200 →
   listingRun
   = (Thrown (JsError (errorMessage
                (GET_response E Listing
                   (requestUrl E this collection sp c0 c1)))),
      t ++ [Request (requestUrl E this collection sp c0 c1)])).
Proof.
  split; intros H Hs; to_request H sp;
    fold (baseUrl E this "works" sp); fold (baseUrl E this collection sp);
    fold (requestUrl E this "works" sp c0 c1);
    fold (requestUrl E this collection sp c0 c1);
    by rewrite bool_decide_eq_false_2.
Qed.

Lemma single_page_works c0 c1 t :
  windowed sp = false → retriveAllPages sp = false →
  PreparedWorks c0 c1 t →
  status (GET_response E Listing (requestUrl E this "works" sp c0 c1)) = 200 →
  worksRun
  = (Returned
       (mkWorks
          (results (received E (AbstractArrayToString sp) (page sp)
                      (GET_response E Listing
                         (requestUrl E this "works" sp c0 c1))))
          (Meta.setUrl (requestUrl E this "works" sp c0 c1)
             (meta (received E (AbstractArrayToString sp) (page sp)
                      (GET_response E Listing
                         (requestUrl E this "works" sp c0 c1)))))),
     t ++ Request (requestUrl E this "works" sp c0 c1)
       :: singleExport (toJson sp) (toCsv sp)
            (received E (AbstractArrayToString sp) (page sp)
               (GET_response E Listing (requestUrl E this "works" sp c0 c1)))).
Proof.
  intros Hw Hd H Hs. to_request H sp.
  fold (baseUrl E this "works" sp). fold (requestUrl E this "works" sp c0 c1).
  rewrite bool_decide_eq_true_2 by done.
  unfold requestPage. rewrite Hw, Hd. cbn [data status statusText].
  rewrite received_eq, finish_run. reflexivity.
Qed.

Lemma single_page_listing c0 c1 t :
  windowed sp = false → retriveAllPages sp = false →
  PreparedListing c0 c1 t →
  status (GET_response E Listing (requestUrl E this collection sp c0 c1))
  = 200 →
  listingRun
  = (Returned (received E false (page sp)
                 (GET_response E Listing
                    (requestUrl E this collection sp c0 c1))),
     t ++ Request (requestUrl E this collection sp c0 c1)
       :: singleExport (toJson sp) (toCsv sp)
            (received E false (page sp)
               (GET_response E Listing
                  (requestUrl E this collection sp c0 c1)))).
Proof.
  intros Hw Hd H Hs. to_request H sp.
  fold (baseUrl E this collection sp).
  fold (requestUrl E this collection sp c0 c1).
  rewrite bool_decide_eq_true_2 by done.
  unfold requestPage. rewrite Hw, Hd. cbn [data status statusText].
  fold (received E false (page sp)
          (GET_response E Listing (requestUrl E this collection sp c0 c1))).
  rewrite finish_run. reflexivity.
Qed.

(** X9.  A single-page request returns the page the remote sent, with
    [meta.page] overwritten by the page asked for (1 if none was), whatever
    the remote reported; [works] converts the results if asked and sets
    [meta.url] to the URL it fetched, the four other methods leave
    [meta.url] as sent.  The URL fetched carries the caller's page size
    and the cursor resolved for the page. *)
Theorem single_page_result c0 c1 t :
  windowed sp = false → retriveAllPages sp = false →
  let sent collection :=
    data (GET_response E Listing (requestUrl E this collection sp c0 c1)) in
  (PreparedWorks c0 c1 t →
   status (GET_response E Listing (requestUrl E this "works" sp c0 c1)) = 200 →
   ∃ w, outcome worksRun = Returned w ∧
        results w = (if AbstractArrayToString sp
                     then abstractToString E <$> results (sent "works")
                     else results (sent "works")) ∧
        Meta.page (meta w) = Some (default 1 (page sp)) ∧
        Meta.url (meta w) = Some (requestUrl E this "works" sp c0 c1) ∧
        Meta.count (meta w) = Meta.count (meta (sent "works")) ∧
        Meta.next_cursor (meta w) = Meta.next_cursor (meta (sent "works"))) ∧
  (PreparedListing c0 c1 t →
   status (GET_response E Listing (requestUrl E this collection sp c0 c1))
   = 200 →
   ∃ w, outcome listingRun = Returned w ∧
        results w = results (sent collection) ∧
        Meta.page (meta w) = Some (default 1 (page sp)) ∧
        Meta.url (meta w) = Meta.url (meta (sent collection)) ∧
        Meta.count (meta w) = Meta.count (meta (sent collection)) ∧
        Meta.next_cursor (meta w)
        = Meta.next_cursor (meta (sent collection))) ∧
  requestUrl E this collection sp c0 c1
  = appendCursorToUrl E (baseUrl E this collection sp) (perPage sp) c0 false.
Proof.
  intros Hw Hd sent. split; [|split].
  - intros H Hs. eexists. rewrite (single_page_works c0 c1 t) by done.
    split; [reflexivity|]. done.
  - intros H Hs. eexists. rewrite (single_page_listing c0 c1 t) by done.
    split; [reflexivity|]. done.
  - unfold requestUrl, requestPerPage, requestCursor. by rewrite Hw, Hd.
Qed.

(** X10.  A single-page request exports after the request and before
    returning: [<toJson>.json] and the CSV, each only if its name is given
    and not empty.  The four sibling methods write the payload they
    return.  [works] writes it before setting [meta.url]: the file has
    the [meta.url] the remote sent, the returned value has the URL fetched. *)
Theorem single_page_export c0 c1 t :
  windowed sp = false → retriveAllPages sp = false →
  (PreparedWorks c0 c1 t →
   status (GET_response E Listing (requestUrl E this "works" sp c0 c1)) = 200 →
   ∃ d, trace worksRun
        = t ++ Request (requestUrl E this "works" sp c0 c1)
            :: singleExport (toJson sp) (toCsv sp) d ∧
        outcome worksRun
        = Returned (mkWorks (results d)
                      (Meta.setUrl (requestUrl E this "works" sp c0 c1)
                                   (meta d))) ∧
        Meta.url (meta d)
        = Meta.url (meta (data (GET_response E Listing
                                  (requestUrl E this "works" sp c0 c1))))) ∧
  (PreparedListing c0 c1 t →
   status (GET_response E Listing (requestUrl E this collection sp c0 c1))
   = 200 →
   ∃ w, trace listingRun
        = t ++ Request (requestUrl E this collection sp c0 c1)
            :: singleExport (toJson sp) (toCsv sp) w ∧
        outcome listingRun = Returned w) ∧
  (∀ d, truthyStr (toJson sp) = false → truthyStr (toCsv sp) = false →
        singleExport (toJson sp) (toCsv sp) d = []) ∧
  (∀ d, singleExport (Some "") (Some "") d = []).
Proof.
  intros Hw Hd. split; [|split; [|split]].
  - intros H Hs. eexists. rewrite (single_page_works c0 c1 t) by done.
    split; [reflexivity|]. split; [reflexivity|]. done.
  - intros H Hs. eexists. rewrite (single_page_listing c0 c1 t) by done.
    split; reflexivity.
  - intros d Hj Hc. unfold singleExport. by rewrite Hj, Hc.
  - done.
Qed.

(** X11.  With [retriveAllPages] the cursor resolved for the caller's page
    is thrown away: the resolution runs, and then the page requested is the
    one at the sentinel ["*"] with page size 200, whatever cursor the
    resolution returned and whatever [perPage] was. *)
Theorem drain_discards_the_resolution c0 c1 t :
  retriveAllPages sp = true → windowed sp = false →
  (PreparedWorks c0 c1 t →
   ∃ t', trace worksRun
         = t ++ Request (appendCursorToUrl E (baseUrl E this "works" sp)
                           (Some 200) "*" true) :: t') ∧
  (PreparedListing c0 c1 t →
   ∃ t', trace listingRun
         = t ++ Request (appendCursorToUrl E (baseUrl E this collection sp)
                           (Some 200) "*" true) :: t').
Proof.
  intros Hd Hw.
  assert (∀ c, requestUrl E this c sp c0 c1
               = appendCursorToUrl E (baseUrl E this c sp) (Some 200) "*" true)
    as Hu.
  { intros c. unfold requestUrl, requestPerPage, requestCursor.
    by rewrite Hw, Hd. }
  split; intros H.
  - unfold worksOver. cbv zeta.
    rewrite (prepared_run _ _ _ _ _ _ _ _ H). cbv beta iota.
    fold (requestPerPage sp). fold (baseUrl E this "works" sp).
    fold (requestUrl E this "works" sp c0 c1). rewrite Hu.
    unfold GET. cbn [bind].
    match goal with
    | |- context [let '(o, es') := ?x in _] => destruct x as [o' t']
    end.
    cbn [trace outcome fst snd app]. eauto.
  - unfold listingOver. cbv zeta.
    rewrite (prepared_run _ _ _ _ _ _ _ _ H). cbv beta iota.
    fold (requestPerPage sp). fold (baseUrl E this collection sp).
    fold (requestUrl E this collection sp c0 c1). rewrite Hu.
    unfold GET. cbn [bind].
    match goal with
    | |- context [let '(o, es') := ?x in _] => destruct x as [o' t']
    end.
    cbn [trace outcome fst snd app]. eauto.
Qed.

(** X12.  In a window, and in a drain without [chunkSize], the call is the
    call of the driver: [works] hands it the URL fetched and the first
    response, with [meta.page] set and the results converted if asked; what
    the driver returns or throws is what [works] returns or throws, and
    [works] itself exports nothing and does not set [meta.url]. *)
Theorem drivers_decide c0 c1 t :
  PreparedWorks c0 c1 t →
  status (GET_response E Listing (requestUrl E this "works" sp c0 c1)) = 200 →
  let url := requestUrl E this "works" sp c0 c1 in
  let r := GET_response E Listing url in
  let first :=
    mkResponse (status r) (statusText r)
               (received E (AbstractArrayToString sp) (requestPage sp) r) in
  let window :=
    imp_handleMultiplePages I (default 0 (startPage sp))
      (default 0 (endPage sp)) url first (toJson sp) (toCsv sp)
      (AbstractArrayToString sp) in
  let whole :=
    imp_handleAllPages I url first (toJson sp) (toCsv sp)
                       (AbstractArrayToString sp) in
  (windowed sp = true →
   worksRun = (outcome window, t ++ Request url :: trace window)) ∧
  (windowed sp = false → retriveAllPages sp = true →
   truthyNum (chunkSize sp) = false →
   worksRun = (outcome whole, t ++ Request url :: trace whole)).
Proof.
  intros H Hs url r first window whole. split.
  - intros Hw. to_request H sp.
    fold (baseUrl E this "works" sp).
    fold (requestUrl E this "works" sp c0 c1). fold url. fold r.
    rewrite bool_decide_eq_true_2 by done. rewrite Hw, received_eq.
    fold first. fold window. by destruct window.
  - intros Hw Hd Hc. to_request H sp.
    fold (baseUrl E this "works" sp).
    fold (requestUrl E this "works" sp c0 c1). fold url. fold r.
    rewrite bool_decide_eq_true_2 by done. rewrite Hw, Hd, Hc, received_eq.
    fold first. fold whole. by destruct whole.
Qed.

(** X13.  In a chunked drain the driver is called and left alone.  What
    it does before it first suspends comes first; then [works] goes on as
    for a single page, exports the first page and returns it with
    [meta.url] set; what is left of the driver runs after that, so that
    the first page is exported before anything the driver does after its
    first suspension.  Whether the driver returns or throws, at once or
    later, the call resolves: an error of the chunked driver never reaches
    the caller. *)
Theorem chunked_driver_is_left_alone c0 c1 t :
  PreparedWorks c0 c1 t →
  status (GET_response E Listing (requestUrl E this "works" sp c0 c1)) = 200 →
  windowed sp = false → retriveAllPages sp = true →
  truthyNum (chunkSize sp) = true →
  let url := requestUrl E this "works" sp c0 c1 in
  let r := GET_response E Listing url in
  let d := received E (AbstractArrayToString sp) (page sp) r in
  let driver :=
    imp_handleAllPagesInChunks I url (mkResponse (status r) (statusText r) d)
      (toJson sp) (toCsv sp) (AbstractArrayToString sp)
      (default 0 (chunkSize sp)) in
  worksRun
  = (Returned (mkWorks (results d) (Meta.setUrl url (meta d))),
     t ++ Request url :: ran driver
       ++ Detached (pending driver) (ending driver)
       :: singleExport (toJson sp) (toCsv sp) d) ∧
  (plain t → plain (ran driver) →
   chronological (trace worksRun)
   = t ++ Request url :: ran driver
       ++ singleExport (toJson sp) (toCsv sp) d ++ pending driver).
Proof.
  intros H Hs Hw Hd Hc url r d driver.
  assert (worksRun
          = (Returned (mkWorks (results d) (Meta.setUrl url (meta d))),
             t ++ Request url :: ran driver
               ++ Detached (pending driver) (ending driver)
               :: singleExport (toJson sp) (toCsv sp) d)) as Hrun.
  { to_request H sp.
    fold (baseUrl E this "works" sp).
    fold (requestUrl E this "works" sp c0 c1). fold url. fold r.
    rewrite bool_decide_eq_true_2 by done.
    unfold requestPage. rewrite Hw, Hd, Hc, received_eq. fold d.
    cbn [data status statusText]. fold driver. rewrite finish_run.
    unfold detach. cbn [bind]. by rewrite <- app_assoc. }
  split; [exact Hrun|]. intros Ht Hran. rewrite Hrun. cbn [trace snd].
  apply chronological_detached; [done|done|apply plain_singleExport].
Qed.

End ListMethods.

(** X14.  [authors], [sources], [institutions] and [topics] read neither
    [chunkSize] nor [AbstractArrayToString]: a drain is never chunked and
    no result is converted, whatever these options are set to. *)
Theorem siblings_ignore_works_options E this fuel sp abstract chunkSize :
  authors E this fuel (withWorksOptions abstract chunkSize sp)
  = authors E this fuel sp ∧
  sources E this fuel (withWorksOptions abstract chunkSize sp)
  = sources E this fuel sp ∧
  institutions E this fuel (withWorksOptions abstract chunkSize sp)
  = institutions E this fuel sp ∧
  topics E this fuel (withWorksOptions abstract chunkSize sp)
  = topics E this fuel sp ∧
  ∀ c v g hm ha,
    listingOver E this c v g hm ha (withWorksOptions abstract chunkSize sp)
    = listingOver E this c v g hm ha sp.
Proof. destruct sp. repeat split. Qed.

(** Concrete runs. *)

Lemma helper_errors_propagate_witness :
  worksOver (modelled Synthetic.library 5) Synthetic.library Synthetic.client
            (Synthetic.request (Some 2) (Some 1) true None (Some 2) (Some 4)
                               false None)
  = (Thrown ValidationError, []).
Proof.
  pose proof (helper_errors_propagate (modelled Synthetic.library 5)
                Synthetic.library Synthetic.client
                (Synthetic.request (Some 2) (Some 1) true None (Some 2)
                                   (Some 4) false None)
                "authors" validateAuthorParameters
                (getCursorByPage Synthetic.library)
                (handleMultipleAuthorsPages Synthetic.library)
                (handleAllAuthorsPages Synthetic.library 5)
                ValidationError []) as [H _].
  apply H. vm_compute. reflexivity.
Defined.

Lemma page_request_checks_for_200_witness :
  worksOver (modelled Synthetic.notFound 0) Synthetic.notFound Synthetic.client
            SearchParameters.defaults
  = (Thrown (JsError "Error 404: Not Found"),
     [Request "https://api.openalex.org/works?per-page=25&cursor=*"]).
Proof.
  pose proof (page_request_checks_for_200 (modelled Synthetic.notFound 0)
                Synthetic.notFound Synthetic.client SearchParameters.defaults
                "authors" validateAuthorParameters
                (getCursorByPage Synthetic.notFound)
                (handleMultipleAuthorsPages Synthetic.notFound)
                (handleAllAuthorsPages Synthetic.notFound 0)
                "*" "*" []) as [H _].
  assert (Prepared (worksValidation (modelled Synthetic.notFound 0)
                                    SearchParameters.defaults)
                   (imp_getCursorByPage (modelled Synthetic.notFound 0))
                   (baseUrl Synthetic.notFound Synthetic.client "works"
                            SearchParameters.defaults)
                   SearchParameters.defaults "*" "*" []) as HP.
  { exists [], [], []. vm_compute. repeat split. }
  specialize (H HP). rewrite H; [vm_compute; reflexivity|].
  vm_compute. discriminate.
Defined.

Lemma single_page_result_witness :
  ∃ w,
    outcome (worksOver (modelled Synthetic.abstracts 0) Synthetic.abstracts
               Synthetic.client
               (Synthetic.request (Some 25) None false None None None
                                  true None))
    = Returned w ∧
    Meta.page (meta w) = Some 1 ∧
    Meta.url (meta w)
    = Some "https://api.openalex.org/works?per-page=25&cursor=*".
Proof.
  pose proof (single_page_result (modelled Synthetic.abstracts 0)
                Synthetic.abstracts Synthetic.client
                (Synthetic.request (Some 25) None false None None None
                                   true None)
                "authors" validateAuthorParameters
                (getCursorByPage Synthetic.abstracts)
                (handleMultipleAuthorsPages Synthetic.abstracts)
                (handleAllAuthorsPages Synthetic.abstracts 0)
                "*" "*" [] eq_refl eq_refl) as H.
  cbv zeta in H. destruct H as [H _].
  assert (Prepared (worksValidation (modelled Synthetic.abstracts 0)
                      (Synthetic.request (Some 25) None false None None None
                                         true None))
                   (imp_getCursorByPage (modelled Synthetic.abstracts 0))
                   (baseUrl Synthetic.abstracts Synthetic.client "works"
                      (Synthetic.request (Some 25) None false None None None
                                         true None))
                   (Synthetic.request (Some 25) None false None None None
                                      true None) "*" "*" []) as HP.
  { exists [], [], []. vm_compute. repeat split. }
  destruct (H HP) as (w & Ho & _ & Hp & Hu & _); [vm_compute; reflexivity|].
  exists w. split; [exact Ho|]. split; [exact Hp|].
  rewrite Hu. vm_compute. reflexivity.
Defined.

Lemma single_page_export_witness :
  ∃ d,
    trace (worksOver (modelled Synthetic.abstracts 0) Synthetic.abstracts
             Synthetic.client
             (Synthetic.request (Some 25) None false (Some "out") None None
                                false None))
    = [Request "https://api.openalex.org/works?per-page=25&cursor=*";
       WriteFileSync "out.json" (DocWorks d)] ∧
    Meta.url (meta d) = None.
Proof.
  pose proof (single_page_export (modelled Synthetic.abstracts 0)
                Synthetic.abstracts Synthetic.client
                (Synthetic.request (Some 25) None false (Some "out") None None
                                   false None)
                "authors" validateAuthorParameters
                (getCursorByPage Synthetic.abstracts)
                (handleMultipleAuthorsPages Synthetic.abstracts)
                (handleAllAuthorsPages Synthetic.abstracts 0)
                "*" "*" [] eq_refl eq_refl) as [H _].
  assert (Prepared (worksValidation (modelled Synthetic.abstracts 0)
                      (Synthetic.request (Some 25) None false (Some "out")
                                         None None false None))
                   (imp_getCursorByPage (modelled Synthetic.abstracts 0))
                   (baseUrl Synthetic.abstracts Synthetic.client "works"
                      (Synthetic.request (Some 25) None false (Some "out")
                                         None None false None))
                   (Synthetic.request (Some 25) None false (Some "out")
                                      None None false None) "*" "*" []) as HP.
  { exists [], [], []. vm_compute. repeat split. }
  destruct (H HP) as (d & Ht & _ & Hu); [vm_compute; reflexivity|].
  exists d. split.
  - rewrite Ht. vm_compute. reflexivity.
  - rewrite Hu. vm_compute. reflexivity.
Defined.

Lemma drain_discards_the_resolution_witness :
  ∃ t',
    trace (worksOver (modelled Synthetic.library 5) Synthetic.library
             Synthetic.client
             (Synthetic.request (Some 2) (Some 3) true None None None
                                false None))
    = [Request (Synthetic.worksUrl "2" "*");
       Request (Synthetic.worksUrl "2" "c2");
       Request (Synthetic.worksUrl "200" "*")] ++ t'.
Proof.
  pose proof (drain_discards_the_resolution (modelled Synthetic.library 5)
                Synthetic.library Synthetic.client
                (Synthetic.request (Some 2) (Some 3) true None None None
                                   false None)
                "authors" validateAuthorParameters
                (getCursorByPage Synthetic.library)
                (handleMultipleAuthorsPages Synthetic.library)
                (handleAllAuthorsPages Synthetic.library 5)
                "c3" "*"
                [Request (Synthetic.worksUrl "2" "*");
                 Request (Synthetic.worksUrl "2" "c2")]
                eq_refl eq_refl) as [H _].
  assert (Prepared (worksValidation (modelled Synthetic.library 5)
                      (Synthetic.request (Some 2) (Some 3) true None None None
                                         false None))
                   (imp_getCursorByPage (modelled Synthetic.library 5))
                   (baseUrl Synthetic.library Synthetic.client "works"
                      (Synthetic.request (Some 2) (Some 3) true None None None
                                         false None))
                   (Synthetic.request (Some 2) (Some 3) true None None None
                                      false None) "c3" "*"
                   [Request (Synthetic.worksUrl "2" "*");
                    Request (Synthetic.worksUrl "2" "c2")]) as HP.
  { exists [], [Request (Synthetic.worksUrl "2" "*");
                Request (Synthetic.worksUrl "2" "c2")], [].
    vm_compute. repeat split. }
  destruct (H HP) as (t' & Ht). exists t'. rewrite Ht.
  vm_compute. reflexivity.
Defined.

Lemma drivers_decide_witness :
  returnedResults
    (outcome (worksOver (modelled Synthetic.library 0) Synthetic.library
                Synthetic.client
                (Synthetic.request (Some 2) (Some 1) false None (Some 2)
                                   (Some 4) false None)))
  = Some (Synthetic.item <$> ["b1"; "b2"; "c1"; "c2"; "d1"; "d2"]).
Proof.
  pose proof (drivers_decide (modelled Synthetic.library 0)
                Synthetic.library Synthetic.client
                (Synthetic.request (Some 2) (Some 1) false None (Some 2)
                                   (Some 4) false None)
                "*" "c2" [Request (Synthetic.worksUrl "2" "*")]) as H.
  assert (Prepared (worksValidation (modelled Synthetic.library 0)
                      (Synthetic.request (Some 2) (Some 1) false None (Some 2)
                                         (Some 4) false None))
                   (imp_getCursorByPage (modelled Synthetic.library 0))
                   (baseUrl Synthetic.library Synthetic.client "works"
                      (Synthetic.request (Some 2) (Some 1) false None (Some 2)
                                         (Some 4) false None))
                   (Synthetic.request (Some 2) (Some 1) false None (Some 2)
                                      (Some 4) false None) "*" "c2"
                   [Request (Synthetic.worksUrl "2" "*")]) as HP.
  { exists [], [], [Request (Synthetic.worksUrl "2" "*")].
    vm_compute. repeat split. }
  specialize (H HP).
  assert (status (GET_response Synthetic.library Listing
                    (requestUrl Synthetic.library Synthetic.client "works"
                       (Synthetic.request (Some 2) (Some 1) false None
                                          (Some 2) (Some 4) false None)
                       "*" "c2")) = 200) as Hs.
  { vm_compute. reflexivity. }
  specialize (H Hs). cbv zeta in H. destruct H as [H _].
  assert (windowed (Synthetic.request (Some 2) (Some 1) false None (Some 2)
                                      (Some 4) false None) = true) as Hw.
  { vm_compute. reflexivity. }
  rewrite (H Hw). vm_compute. reflexivity.
Defined.

Lemma chunked_driver_is_left_alone_witness :
  let request :=
    Synthetic.request (Some 2) None true (Some "out") None None false
                      (Some 3) in
  let first :=
    mkWorks (Synthetic.item <$> ["a1"; "a2"])
            (Meta.mk 5 (Some 1) 200 (Some "c2") None) in
  let returned :=
    mkWorks (results first)
            (Meta.setUrl (Synthetic.worksUrl "200" "*") (meta first)) in
  worksOver (modelled Synthetic.library 6) Synthetic.library Synthetic.client
            request
  = (Returned returned,
     [Request (Synthetic.worksUrl "200" "*");
      Request (Synthetic.worksUrl "200" "c2");
      Detached
        [WriteFileSync "out0.json"
           (DocResults (Synthetic.item <$> ["a1"; "a2"; "b1"; "b2"]));
         Request (Synthetic.worksUrl "200" "c3");
         Request (Synthetic.worksUrl "200" "c4");
         WriteFileSync "out1.json"
           (DocResults (Synthetic.item <$> ["c1"; "c2"; "d1"; "d2"]));
         Request (Synthetic.worksUrl "200" "c5");
         WriteFileSync "out2.json" (DocResults [Synthetic.item "e1"])]
        (Returned tt);
      WriteFileSync "out.json" (DocWorks first)]) ∧
  worksOver (Synthetic.withChunkedDriver Synthetic.library Synthetic.failing)
            Synthetic.library Synthetic.client request
  = (Returned returned,
     [Request (Synthetic.worksUrl "200" "*");
      Detached [] (Thrown (TransportError 500 "Internal Server Error"));
      WriteFileSync "out.json" (DocWorks first)]) ∧
  worksOver (Synthetic.withChunkedDriver Synthetic.library Synthetic.waiting)
            Synthetic.library Synthetic.client request
  = (Returned returned,
     [Request (Synthetic.worksUrl "200" "*");
      ConsoleLog "chunking";
      Detached [WriteFileSync "late.json" (DocResults [])] (Returned tt);
      WriteFileSync "out.json" (DocWorks first)]) ∧
  chronological
    (trace (worksOver (Synthetic.withChunkedDriver Synthetic.library
                         Synthetic.waiting)
                      Synthetic.library Synthetic.client request))
  = [Request (Synthetic.worksUrl "200" "*");
     ConsoleLog "chunking";
     WriteFileSync "out.json" (DocWorks first);
     WriteFileSync "late.json" (DocResults [])].
Proof.
  cbv zeta.
  set (request := Synthetic.request (Some 2) None true (Some "out") None None
                                    false (Some 3)).
  assert (∀ I,
            imp_validateParameters I = validateParameters →
            imp_getCursorByPage I = getCursorByPage Synthetic.library →
            Prepared (worksValidation I request) (imp_getCursorByPage I)
              (baseUrl Synthetic.library Synthetic.client "works" request)
              request "*" "*" []) as HP.
  { intros I Hv Hg. exists [], [], []. unfold worksValidation.
    rewrite Hv, Hg. vm_compute. repeat split. }
  assert (status (GET_response Synthetic.library Listing
                    (requestUrl Synthetic.library Synthetic.client "works"
                       request "*" "*")) = 200) as Hs.
  { vm_compute. reflexivity. }
  assert (windowed request = false) as Hw by (vm_compute; reflexivity).
  assert (truthyNum (SearchParameters.chunkSize request) = true) as Hc
    by (vm_compute; reflexivity).
  pose proof (λ I Hv Hg,
                proj1 (chunked_driver_is_left_alone I Synthetic.library
                         Synthetic.client request "*" "*" [] (HP I Hv Hg)
                         Hs Hw eq_refl Hc)) as H.
  pose proof (λ I Hv Hg,
                proj2 (chunked_driver_is_left_alone I Synthetic.library
                         Synthetic.client request "*" "*" [] (HP I Hv Hg)
                         Hs Hw eq_refl Hc)) as Hchr.
  cbv zeta in H, Hchr.
  split; [|split; [|split]].
  1-3: rewrite H by reflexivity; vm_compute; reflexivity.
  rewrite Hchr;
    [vm_compute; reflexivity|reflexivity|reflexivity|constructor|].
  by repeat constructor.
Defined.
